(** * Shannon Crypto: consensus engine and multi-chain workspace manager

    A shallow embedding of two components of the repository:

    - [ConsensusEngine] (TypeScript), which merges the findings of several
      analysis tools, and
    - [MultiChainWorkspaceManager] (JavaScript), the persistent workspace store.

    Modelling conventions.

    - A JavaScript number is a rational or [NaN]; the arithmetic of the
      engine (sums of weights, [* 50], [+ 20], [Math.min]) is exact on the
      values it meets, so rounding is not modelled.
    - An object used as a dictionary is a finite map ([gmap]) when only its
      contents matter and an association list in insertion order when the
      order of [Object.keys] / [Object.entries] / [Map.values] is observable.
      A map holds the own properties of the object.  For a name that every
      object inherits from [Object.prototype] ([Js.inherited]:
      ["constructor"], ["toString"], ["__proto__"], ...) JavaScript reads
      the inherited member where the map reads nothing, and an assignment
      to ["__proto__"] sets the prototype instead of a property: a chain or
      an address of such a name makes [workspace.chains[chain]] truthy
      without an entry, so that the following [push] throws a [TypeError],
      and makes [workspace.contracts[address]] the prototype's member.  The
      maps show neither; the theorems that rest on such a read or write
      state that the name is not inherited.  Integer-like keys, which
      [Object.keys] lists first, are outside the model.
    - [undefined] is [None].
    - File-system calls succeed; a persisted [workspace.json] is the record
      that was serialised.  A path below [workspaceDir] is the list of the
      segments handed to [path.join], which is the path that [path.join]
      builds when each segment is a plain name ([Js.plain]): an empty id or
      ["."] would name [workspaceDir] itself, and ["./w1"] or ["w1/"] the
      directory of ["w1"].  The theorems that tell the directories of two
      ids apart state that the ids are plain; two names that differ are
      two files, as on a file system that is sensitive to case.
    - Each [new Date()] reads the next value of a clock oracle. *)

From Stdlib Require Import QArith Lqa.
From stdpp Require Import gmap strings list fin_maps pretty.

Local Open Scope string_scope.
Local Open Scope nat_scope.
Local Open Scope list_scope.

(** ** JavaScript values used by both components *)

Module Js.

(** A JavaScript number: a rational, or NaN. *)
Inductive number : Type :=
| Num (q : Q)
| NaN.

Definition add (a b : number) : number :=
  match a, b with
  | Num x, Num y => Num (x + y)
  | _, _ => NaN
  end.

Definition mul (a b : number) : number :=
  match a, b with
  | Num x, Num y => Num (x * y)
  | _, _ => NaN
  end.

(** [a < b]: false as soon as one side is NaN. *)
Definition ltb (a b : number) : bool :=
  match a, b with
  | Num x, Num y => negb (Qle_bool y x)
  | _, _ => false
  end.

(** [Math.min(a, b)]. *)
Definition min (a b : number) : number :=
  match a, b with
  | Num x, Num y => if Qle_bool x y then Num x else Num y
  | _, _ => NaN
  end.

(** [undefined] converts to NaN in arithmetic. *)
Definition of_undef (o : option Q) : number :=
  match o with
  | Some q => Num q
  | None => NaN
  end.

(** [hay.includes(needle)]. *)
Fixpoint includes (needle hay : string) : bool :=
  String.prefix needle hay
  || match hay with
     | EmptyString => false
     | String _ rest => includes needle rest
     end.

(** [s.replace(pat, rep)] with a string pattern: the first occurrence only. *)
Fixpoint replace_first (pat rep s : string) : string :=
  if String.prefix pat s
  then rep +:+ String.substring (String.length pat)
                                (String.length s - String.length pat) s
  else match s with
       | EmptyString => EmptyString
       | String c rest => String c (replace_first pat rep rest)
       end.

(** [xs.join(sep)]. *)
Fixpoint join (sep : string) (xs : list string) : string :=
  match xs with
  | [] => ""
  | [x] => x
  | x :: rest => x +:+ sep +:+ join sep rest
  end.

(** The members that every object inherits from [Object.prototype]. *)
Definition Object_prototype : list string :=
  ["constructor"; "__defineGetter__"; "__defineSetter__"; "hasOwnProperty";
   "__lookupGetter__"; "__lookupSetter__"; "isPrototypeOf";
   "propertyIsEnumerable"; "toString"; "valueOf"; "__proto__";
   "toLocaleString"].

(** [name in {}]: on an object without own property [name], [o[name]] is
    the inherited member, not [undefined]. *)
Definition inherited (name : string) : bool :=
  existsb (String.eqb name) Object_prototype.

(** A name that [path.join(dir, name)] appends to [dir] as one segment:
    not empty, not ["."] or [".."], and free of the separators, the slash
    and the backslash (character 92). *)
Definition plain (name : string) : bool :=
  negb (String.eqb name "")
  && negb (String.eqb name ".")
  && negb (String.eqb name "..")
  && negb (includes "/" name)
  && negb (includes (String (Ascii.ascii_of_nat 92) "") name).

End Js.

(** ** The consensus engine *)

Module Consensus.

Import Js.

Inductive Severity : Type := critical | high | medium | low.

Inductive Confidence : Type := conf_high | conf_medium | conf_low.

Definition Severity_eqb (a b : Severity) : bool :=
  match a, b with
  | critical, critical | high, high | medium, medium | low, low => true
  | _, _ => false
  end.

(** [c === k] for a confidence slot that may hold [undefined]. *)
Definition conf_is (c : option Confidence) (k : Confidence) : bool :=
  match c, k with
  | Some conf_high, conf_high
  | Some conf_medium, conf_medium
  | Some conf_low, conf_low => true
  | _, _ => false
  end.

Definition severity_name (s : Severity) : string :=
  match s with
  | critical => "critical"
  | high => "high"
  | medium => "medium"
  | low => "low"
  end.

Record Location : Type := mkLocation {
  file : string;
  lineStart : Z;
  lineEnd : Z;
}.

(** [interface Vulnerability].  [tools] is an object whose own keys are kept
    in insertion order; [confidence] may hold [undefined] once the engine
    has written it. *)
Record Vulnerability : Type := mkVulnerability {
  id : string;
  title : string;
  severity : Severity;
  description : string;
  location : Location;
  tools : list (string * bool);
  confidence : option Confidence;
  confidenceScore : number;
  recommendation : string;
}.

(** [interface ToolResult]. *)
Record ToolResult : Type := mkToolResult {
  tool : string;
  vulnerabilities : list Vulnerability;
  tr_confidence : number;
}.

(** The [consensus] counters of [ConsensusResult]. *)
Record Stats : Type := mkStats {
  total : nat;
  agreed : nat;
  conflicts : nat;
  overrides : nat;
}.

Record ConsensusResult : Type := mkConsensusResult {
  cr_vulnerabilities : list Vulnerability;
  consensus : Stats;
  cr_toolWeights : list (string * Q);
}.

(** [this.toolWeights], as set by the constructor. *)
Definition toolWeights : list (string * Q) :=
  [ ("slither", 0.40%Q); ("mythril", 0.30%Q); ("echidna", 0.20%Q);
    ("medusa", 0.10%Q); ("ai", 0.50%Q) ].

(** [obj[k]] on an association list. *)
Fixpoint assoc {A : Type} (k : string) (m : list (string * A)) : option A :=
  match m with
  | [] => None
  | (k', a) :: rest => if String.eqb k k' then Some a else assoc k rest
  end.

(** [obj[k] = a]: overwrite in place, or add the key at the end. *)
Fixpoint assoc_set {A : Type} (k : string) (a : A) (m : list (string * A))
  : list (string * A) :=
  match m with
  | [] => [(k, a)]
  | (k', a') :: rest =>
      if String.eqb k k' then (k', a) :: rest
      else (k', a') :: assoc_set k a rest
  end.

(** [this.toolWeights[t]] as a number: [undefined] for an unknown name. *)
Definition weight (t : string) : number := of_undef (assoc t toolWeights).

(** [this.toolWeights[finding.tool]]: [Vulnerability] declares no property
    [tool] and [groupFindings] adds none (it writes [tools]), so the read
    gives [undefined] and the table is indexed at ["undefined"]. *)
Definition finding_tool (f : Vulnerability) : option string := None.

Definition weight_at (k : option string) : number :=
  match k with
  | Some t => weight t
  | None => weight "undefined"
  end.


(** *** groupFindings *)

(** The [Map] key: [`${file}:${lineStart}-${severity}`]. *)
Definition identityKey (v : Vulnerability) : string :=
  file (location v) +:+ ":" +:+ pretty (lineStart (location v))
    +:+ "-" +:+ severity_name (severity v).

(** [{ ...vuln, tools: { [tool]: true } }]. *)
Definition vulnWithTool (t : string) (v : Vulnerability) : Vulnerability :=
  {| id := id v; title := title v; severity := severity v;
     description := description v; location := location v;
     tools := [(t, true)];
     confidence := confidence v; confidenceScore := confidenceScore v;
     recommendation := recommendation v |}.

(** [if (!groups.has(key)) groups.set(key, []); groups.get(key).push(v)]:
    a new key goes to the end of the map, an old one keeps its place. *)
Definition group_push (key : string) (v : Vulnerability)
    (groups : list (string * list Vulnerability))
  : list (string * list Vulnerability) :=
  assoc_set key (default [] (assoc key groups) ++ [v])%list groups.

Definition groupFindings_map (results : list ToolResult)
  : list (string * list Vulnerability) :=
  fold_left
    (fun groups result =>
       fold_left
         (fun groups vuln =>
            group_push (identityKey vuln) (vulnWithTool (tool result) vuln) groups)
         (vulnerabilities result) groups)
    results [].

(** [Array.from(groups.values())]. *)
Definition groupFindings (results : list ToolResult) : list (list Vulnerability) :=
  map snd (groupFindings_map results).

(** *** mergeFindings *)

Definition severityMap (s : Severity) : nat :=
  match s with
  | critical => 3
  | high => 2
  | medium => 1
  | low => 0
  end.

(** [Math.max(...xs)] on the images of [severityMap], all of them at least
    0; it is only reached with a non-empty list. *)
Definition max_index (xs : list nat) : nat := fold_right Nat.max 0 xs.

(** The sum of the weights of [ts], from 0, left to right. *)
Definition sum_weights (ts : list string) : number :=
  fold_left (fun sum t => add sum (weight t)) ts (Num 0).

Definition mergeFindings (group : list Vulnerability) (ts : list string)
  : option Vulnerability :=
  match group with
  | [] => None
  | base :: _ =>
      let combinedTools :=
        fold_left (fun acc t => assoc_set t true acc) ts [] in
      let descriptions :=
        List.filter (fun d => negb (String.eqb d "")) (map description group) in
      let mergedDescription :=
        if 1 <? length descriptions
        then title base +:+ " - " +:+ join ", " ts +:+ " detected"
        else description base in
      let maxSeverityIndex := max_index (map severityMap (map severity group)) in
      let mergedSeverity :=
        default (severity base)
          (List.find (fun k => severityMap k =? maxSeverityIndex)
                     [critical; high; medium; low]) in
      Some {| id := id base; title := mergedDescription;
              severity := mergedSeverity; description := mergedDescription;
              location := location base; tools := combinedTools;
              confidence := Some conf_medium;
              confidenceScore := sum_weights ts;
              recommendation := recommendation base |}
  end.

(** *** calculateConsensus *)

Record Tally : Type := mkTally {
  toolAgreements : list (string * nat);
  maxAgreements : nat;
  maxTool : string;
}.

(** One round of the inner loop: [if (!toolAgreements[tool])
    toolAgreements[tool] = 0; toolAgreements[tool]++] and the running
    maximum. *)
Definition count_tool (t : Tally) (name : string) : Tally :=
  let n := S (default 0 (assoc name (toolAgreements t))) in
  let ag := assoc_set name n (toolAgreements t) in
  if maxAgreements t <? n
  then {| toolAgreements := ag; maxAgreements := n; maxTool := name |}
  else {| toolAgreements := ag; maxAgreements := maxAgreements t;
          maxTool := maxTool t |}.

Definition tally (group : list Vulnerability) : Tally :=
  fold_left
    (fun t vuln => fold_left count_tool (map fst (tools vuln)) t)
    group
    {| toolAgreements := []; maxAgreements := 0; maxTool := "" |}.

(** The tools whose own count in the group is at least 2. *)
Definition agreedTools (group : list Vulnerability) : list string :=
  map fst (List.filter (fun e => 2 <=? snd e) (toolAgreements (tally group))).

Record Calc : Type := mkCalc {
  c_agreed : bool;
  c_conflict : bool;
  c_finding : option Vulnerability;
  c_findings : list Vulnerability;
}.

(** [{ ...merged, confidence, confidenceScore }]. *)
Definition with_confidence (c : option Confidence) (s : number)
    (v : Vulnerability) : Vulnerability :=
  {| id := id v; title := title v; severity := severity v;
     description := description v; location := location v;
     tools := tools v; confidence := c; confidenceScore := s;
     recommendation := recommendation v |}.

Definition calculateConsensus (group : list Vulnerability) : Calc :=
  match group with
  | [] | [_] =>
      {| c_agreed := false; c_conflict := false;
         c_finding := head group; c_findings := group |}
  | _ =>
      let ts := agreedTools group in
      if 2 <=? length ts then
        let score := sum_weights ts in
        let merged := mergeFindings group ts in
        (* [let confidence: 'medium';] declares a type, not a value: the
           variable holds [undefined] unless the test below assigns it. *)
        let conf := if 3 <=? length ts then Some conf_high else None in
        {| c_agreed := true; c_conflict := false;
           c_finding := with_confidence conf score <$> merged;
           c_findings := group |}
      else
        {| c_agreed := false; c_conflict := 1 <? length group;
           c_finding := head group; c_findings := group |}
  end.

(** *** resolveConflict *)

(** [entries.sort(([, a], [, b]) => b - a)]: a stable sort, larger weights
    first. *)
Fixpoint insert_desc (x : string * Q) (l : list (string * Q))
  : list (string * Q) :=
  match l with
  | [] => [x]
  | y :: rest =>
      if Qle_bool (snd y) (snd x) then x :: y :: rest
      else y :: insert_desc x rest
  end.

Definition sort_desc (l : list (string * Q)) : list (string * Q) :=
  fold_right insert_desc [] l.

(** [Object.entries(this.toolWeights).sort(...)[0]?.[0] || 'ai']. *)
Definition mostTrusted : string :=
  match sort_desc toolWeights with
  | (t, _) :: _ => if String.eqb t "" then "ai" else t
  | [] => "ai"
  end.

Definition detected_by (t : string) (f : Vulnerability) : bool :=
  default false (assoc t (tools f)).

Definition resolveConflict (group findings : list Vulnerability)
  : option Vulnerability :=
  match List.find (detected_by mostTrusted) findings with
  | None => head findings
  | Some trusted =>
      Some {| id := id trusted; title := title trusted;
              severity := severity trusted;
              description := description trusted;
              location := location trusted;
              tools := assoc_set mostTrusted true (tools trusted);
              confidence := Some conf_high;
              confidenceScore := Num 100;
              recommendation := recommendation trusted |}
  end.

(** *** combineResults *)

(** The body of the loop for one group: the finding pushed onto
    [processedVulns].  [None] stands for the [TypeError] of reading
    [group[0].tool] in an empty group. *)
Definition processGroup (group : list Vulnerability) : option Vulnerability :=
  let c := calculateConsensus group in
  if c_agreed c then c_finding c
  else if c_conflict c then resolveConflict group (c_findings c)
  else
    match head group with
    | None => None
    | Some finding =>
        Some (with_confidence (Some conf_low)
                (mul (weight_at (finding_tool finding)) (Num 50)) finding)
    end.

(** One iteration over the pair (outer counters, [processedVulns]).  Inside
    the loop the name [consensus] is the block-scoped [const consensus =
    this.calculateConsensus(group)], so [consensus.agreed++],
    [consensus.conflicts++], [consensus.overrides++] and [consensus.total++]
    write to that object; the outer counters are not touched. *)
Definition loop_step (acc : option (Stats * list Vulnerability))
    (group : list Vulnerability) : option (Stats * list Vulnerability) :=
  match acc with
  | None => None
  | Some (outer, processedVulns) =>
      match processGroup group with
      | None => None
      | Some v => Some (outer, (processedVulns ++ [v])%list)
      end
  end.

Definition combineResults (results : list ToolResult) : option ConsensusResult :=
  let outer0 := {| total := 0; agreed := 0; conflicts := 0; overrides := 0 |} in
  let findings := groupFindings results in
  match fold_left loop_step findings (Some (outer0, [])) with
  | None => None
  | Some (outer, processedVulns) =>
      Some {| cr_vulnerabilities := processedVulns;
              consensus := {| total := length findings;
                              agreed := agreed outer;
                              conflicts := conflicts outer;
                              overrides := overrides outer |};
              cr_toolWeights := toolWeights |}
  end.

(** *** reduceFalsePositives *)

Definition isLikelyFalsePositive (vuln : Vulnerability) : bool :=
  (Severity_eqb (severity vuln) low && conf_is (confidence vuln) conf_low)
  || (includes ".t.sol" (file (location vuln))
      || includes "test" (file (location vuln)))
  || (includes "variable" (description vuln)
      || includes "storage slot" (description vuln))
  || (conf_is (confidence vuln) conf_low && (length (tools vuln) =? 1)).

Definition adjustConfidence (vuln : Vulnerability) : Vulnerability :=
  let confidence0 := confidence vuln in
  let score0 := confidenceScore vuln in
  let '(confidence1, score1) :=
    if Severity_eqb (severity vuln) critical && ltb score0 (Num 80)
    then (Some conf_high, min (add score0 (Num 20)) (Num 100))
    else if Severity_eqb (severity vuln) high && ltb score0 (Num 70)
    then ((if conf_is confidence0 conf_low then Some conf_medium else confidence0),
          min (add score0 (Num 10)) (Num 100))
    else (confidence0, score0) in
  let '(confidence2, score2) :=
    if 2 <=? length (tools vuln)
    then ((if conf_is confidence1 conf_low then Some conf_medium
           else if conf_is confidence1 conf_medium then Some conf_high
           else confidence1),
          min (add score1 (Num 15)) (Num 100))
    else (confidence1, score1) in
  with_confidence confidence2 score2 vuln.

Fixpoint reduceFalsePositives (vulns : list Vulnerability) : list Vulnerability :=
  match vulns with
  | [] => []
  | vuln :: rest =>
      if isLikelyFalsePositive vuln then reduceFalsePositives rest
      else adjustConfidence vuln :: reduceFalsePositives rest
  end.

End Consensus.

(** ** The multi-chain workspace manager *)

Module Workspace.

Import Js.

(** A [Date], as milliseconds since the epoch. *)
Definition Date : Type := Z.

(** The JSON scalars found in contract metadata. *)
Inductive value : Type :=
| VStr (s : string)
| VNum (n : Z)
| VBool (b : bool)
| VDate (d : Date).

Section Store.

(** The items of a vulnerability list ([any[]] in the source). *)
Context {Vuln : Type}.

(** The successive results of [new Date()]. *)
Variable clock : nat -> Date.

(** One entry of [workspace.chains]. *)
Record ChainState : Type := mkChainState {
  cs_contracts : list string;
  cs_vulnerabilities : list Vuln;
  cs_reports : list string;
  cs_config : gmap string value;
}.

(** [interface ChainWorkspace]. *)
Record ChainWorkspace : Type := mkChainWorkspace {
  workspaceId : string;
  chains : gmap string ChainState;
  contracts : gmap string (gmap string (gmap string value));
  vulnerabilities : gmap string (list Vuln);
  reports : gmap string string;
  createdAt : Date;
  updatedAt : Date;
}.

(** [interface MultiChainWorkspaceConfig]. *)
Record Config : Type := mkConfig {
  defaultChain : string;
  supportedChains : list string;
  workspaceDir : string;
}.

Definition DEFAULT_CONFIG : Config :=
  {| defaultChain := "ethereum";
     supportedChains :=
       ["ethereum"; "bnb"; "polygon"; "arbitrum"; "optimism"; "avalanche"];
     workspaceDir := "./workspaces" |}.

(** The manager together with the directory it persists to.  Paths are
    lists of components below [workspaceDir]: [docs] maps a workspace id
    to the content of its [workspace.json], [files] maps the path of a
    report to its text, [dirs] is the set of directories; [ticks] counts
    the clock readings made so far. *)
Record State : Type := mkState {
  config : Config;
  workspaces : gmap string ChainWorkspace;
  currentWorkspace : option string;
  docs : gmap string ChainWorkspace;
  files : gmap (list string) string;
  dirs : gset (list string);
  ticks : nat;
}.

(** What a method call does: it returns, or it throws an [Error]. *)
Inductive outcome (A : Type) : Type :=
| Returned (a : A) (st : State)
| Thrown (message : string) (st : State).
Arguments Returned {A} a st.
Arguments Thrown {A} message st.

Definition set_updatedAt (d : Date) (w : ChainWorkspace) : ChainWorkspace :=
  {| workspaceId := workspaceId w; chains := chains w;
     contracts := contracts w; vulnerabilities := vulnerabilities w;
     reports := reports w; createdAt := createdAt w; updatedAt := d |}.

Definition set_chains (c : gmap string ChainState) (w : ChainWorkspace)
  : ChainWorkspace :=
  {| workspaceId := workspaceId w; chains := c;
     contracts := contracts w; vulnerabilities := vulnerabilities w;
     reports := reports w; createdAt := createdAt w;
     updatedAt := updatedAt w |}.

Definition set_contracts (c : gmap string (gmap string (gmap string value)))
    (w : ChainWorkspace) : ChainWorkspace :=
  {| workspaceId := workspaceId w; chains := chains w;
     contracts := c; vulnerabilities := vulnerabilities w;
     reports := reports w; createdAt := createdAt w;
     updatedAt := updatedAt w |}.

Definition set_vulnerabilities (v : gmap string (list Vuln))
    (w : ChainWorkspace) : ChainWorkspace :=
  {| workspaceId := workspaceId w; chains := chains w;
     contracts := contracts w; vulnerabilities := v;
     reports := reports w; createdAt := createdAt w;
     updatedAt := updatedAt w |}.

Definition set_reports (r : gmap string string) (w : ChainWorkspace)
  : ChainWorkspace :=
  {| workspaceId := workspaceId w; chains := chains w;
     contracts := contracts w; vulnerabilities := vulnerabilities w;
     reports := r; createdAt := createdAt w; updatedAt := updatedAt w |}.

(** [new Date()]: the next clock value. *)
Definition new_Date (st : State) : Date * State :=
  (clock (ticks st),
   {| config := config st; workspaces := workspaces st;
      currentWorkspace := currentWorkspace st; docs := docs st;
      files := files st; dirs := dirs st; ticks := S (ticks st) |}).

(** [fs.promises.mkdir(p, { recursive: true })]. *)
Definition mkdir (p : list string) (st : State) : State :=
  {| config := config st; workspaces := workspaces st;
     currentWorkspace := currentWorkspace st; docs := docs st;
     files := files st; dirs := {[ p ]} ∪ dirs st; ticks := ticks st |}.

(** [this.workspaces.set(id, w)]. *)
Definition workspaces_set (wid : string) (w : ChainWorkspace) (st : State)
  : State :=
  {| config := config st; workspaces := <[wid := w]> (workspaces st);
     currentWorkspace := currentWorkspace st; docs := docs st;
     files := files st; dirs := dirs st; ticks := ticks st |}.

(** Writing [workspace.json] of workspace [wid].  The document is filed
    under the id as given; [path.join(workspaceDir, wid)] is the directory
    of that id alone when [Js.plain wid]. *)
Definition write_doc (wid : string) (w : ChainWorkspace) (st : State) : State :=
  {| config := config st; workspaces := workspaces st;
     currentWorkspace := currentWorkspace st;
     docs := <[wid := w]> (docs st);
     files := files st; dirs := dirs st; ticks := ticks st |}.

Definition write_file (p : list string) (text : string) (st : State) : State :=
  {| config := config st; workspaces := workspaces st;
     currentWorkspace := currentWorkspace st; docs := docs st;
     files := <[p := text]> (files st); dirs := dirs st; ticks := ticks st |}.

Definition set_current (c : option string) (st : State) : State :=
  {| config := config st; workspaces := workspaces st;
     currentWorkspace := c; docs := docs st;
     files := files st; dirs := dirs st; ticks := ticks st |}.

(** The constructor: [loadWorkspaces] reads every [workspace.json] found
    under [workspaceDir]. *)
Definition new_manager (cfg : Config) (disk_docs : gmap string ChainWorkspace)
    (disk_files : gmap (list string) string) (disk_dirs : gset (list string))
  : State :=
  {| config := cfg; workspaces := disk_docs; currentWorkspace := None;
     docs := disk_docs; files := disk_files; dirs := disk_dirs; ticks := 0 |}.

(** [saveWorkspace]: the document is written first, [updatedAt] is set on
    the object afterwards.  The result carries the object as it is after
    the call. *)
Definition saveWorkspace (wid : string) (workspace : ChainWorkspace)
    (st : State) : ChainWorkspace * State :=
  let st1 := if decide ([wid] ∈ dirs st) then st else mkdir [wid] st in
  let st2 := write_doc wid workspace st1 in
  let '(now, st3) := new_Date st2 in
  let workspace' := set_updatedAt now workspace in
  (workspace', workspaces_set wid workspace' st3).

(** [loadWorkspace]: the object held in memory, else the document on disk
    (which then becomes the current workspace), else [null]. *)
Definition loadWorkspace (wid : string) (st : State)
  : option ChainWorkspace * State :=
  match workspaces st !! wid with
  | Some w => (Some w, st)
  | None =>
      match docs st !! wid with
      | None => (None, st)
      | Some w => (Some w, set_current (Some wid) (workspaces_set wid w st))
      end
  end.

Definition emptyChain : ChainState :=
  {| cs_contracts := []; cs_vulnerabilities := []; cs_reports := [];
     cs_config := ∅ |}.

(** The object that [createWorkspace] builds: an entry for every
    supported chain, nothing else. *)
Definition freshWorkspace (wid : string) (cfg : Config)
    (created updated : Date) : ChainWorkspace :=
  {| workspaceId := wid;
     chains :=
       fold_left (fun m chain => <[chain := emptyChain]> m)
         (supportedChains cfg) ∅;
     contracts := ∅; vulnerabilities := ∅; reports := ∅;
     createdAt := created; updatedAt := updated |}.

Definition createWorkspace (wid : string) (chs : list string) (st : State)
  : outcome ChainWorkspace :=
  let st1 := mkdir [wid] st in
  let st2 :=
    fold_left (fun s chain => mkdir [wid; chain] s)
      (if 0 <? length chs then chs else supportedChains (config st)) st1 in
  let '(created, st3) := new_Date st2 in
  let '(updated, st4) := new_Date st3 in
  let workspace := freshWorkspace wid (config st) created updated in
  let '(workspace', st5) := saveWorkspace wid workspace st4 in
  Returned workspace' (workspaces_set wid workspace' st5).

Definition notFound {A : Type} (wid : string) (st : State) : outcome A :=
  Thrown ("Workspace not found: " +:+ wid) st.

(** [`${contractAddress}:${chain}`]. *)
Definition contractKey (contractAddress chain : string) : string :=
  contractAddress +:+ ":" +:+ chain.

(** [if (workspace.chains[chain]) update]: a chain without entry is left
    alone.  The lookup is the one of the map, that is of the own
    properties: for a chain without entry whose name is [Js.inherited] the
    guard of the source is truthy and the update throws. *)
Definition on_chain (chain : string) (f : ChainState -> ChainState)
    (w : ChainWorkspace) : ChainWorkspace :=
  match chains w !! chain with
  | Some cs => set_chains (<[chain := f cs]> (chains w)) w
  | None => w
  end.

Definition push_contract (a : string) (cs : ChainState) : ChainState :=
  {| cs_contracts := cs_contracts cs ++ [a];
     cs_vulnerabilities := cs_vulnerabilities cs;
     cs_reports := cs_reports cs; cs_config := cs_config cs |}.

Definition push_vulnerabilities (vs : list Vuln) (cs : ChainState) : ChainState :=
  {| cs_contracts := cs_contracts cs;
     cs_vulnerabilities := cs_vulnerabilities cs ++ vs;
     cs_reports := cs_reports cs; cs_config := cs_config cs |}.

Definition push_report (k : string) (cs : ChainState) : ChainState :=
  {| cs_contracts := cs_contracts cs;
     cs_vulnerabilities := cs_vulnerabilities cs;
     cs_reports := cs_reports cs ++ [k]; cs_config := cs_config cs |}.

(** [addContract].  [if (!workspace.contracts[contractAddress])] and the
    assignment at [[contractAddress][chain]] are those of the maps: they
    are the source's for an address that is not [Js.inherited] and a chain
    other than ["__proto__"]. *)
Definition addContract (wid contractAddress chain : string)
    (contractData : gmap string value) (st : State) : outcome unit :=
  match loadWorkspace wid st with
  | (None, st1) => notFound wid st1
  | (Some workspace, st1) =>
      let perChain := default ∅ (contracts workspace !! contractAddress) in
      let '(addedAt, st2) := new_Date st1 in
      (* [{ address, chain, addedAt, ...contractData }]: the spread comes
         last, so its keys win. *)
      let record : gmap string value :=
        contractData ∪ <["address" := VStr contractAddress]>
                        (<["chain" := VStr chain]>
                           (<["addedAt" := VDate addedAt]> ∅)) in
      let w1 :=
        set_contracts
          (<[contractAddress := <[chain := record]> perChain]>
             (contracts workspace)) workspace in
      let w2 := on_chain chain (push_contract contractAddress) w1 in
      let '(_, st3) := saveWorkspace wid w2 st2 in
      Returned tt st3
  end.

Definition addVulnerabilities (wid contractAddress chain : string)
    (vulns : list Vuln) (st : State) : outcome unit :=
  match loadWorkspace wid st with
  | (None, st1) => notFound wid st1
  | (Some workspace, st1) =>
      let key := contractKey contractAddress chain in
      let w1 :=
        set_vulnerabilities (<[key := vulns]> (vulnerabilities workspace))
          workspace in
      let w2 := on_chain chain (push_vulnerabilities vulns) w1 in
      let '(_, st2) := saveWorkspace wid w2 st1 in
      Returned tt st2
  end.

Definition addReport (wid contractAddress chain report : string)
    (st : State) : outcome unit :=
  match loadWorkspace wid st with
  | (None, st1) => notFound wid st1
  | (Some workspace, st1) =>
      let key := contractKey contractAddress chain in
      let w1 := set_reports (<[key := report]> (reports workspace)) workspace in
      let w2 := on_chain chain (push_report key) w1 in
      let '(_, st2) := saveWorkspace wid w2 st1 in
      let st3 := mkdir [wid; chain] st2 in
      let reportPath :=
        [wid; chain; replace_first "0x" "" contractAddress +:+ "-report.md"] in
      Returned tt (write_file reportPath report st3)
  end.

(** The object returned by [getWorkspaceStats]. *)
Record WorkspaceStats : Type := mkWorkspaceStats {
  ws_workspaceId : string;
  ws_chains : nat;
  ws_contracts : nat;
  ws_vulnerabilities : nat;
  ws_reports : nat;
  ws_createdAt : Date;
  ws_updatedAt : Date;
}.

(** [Object.keys(v).reduce((sum, key) => sum + v[key].length, 0)]. *)
Definition countVulnerabilities (v : gmap string (list Vuln)) : nat :=
  map_fold (fun _ l sum => sum + length l) 0 v.

Definition getWorkspaceStats (wid : string) (st : State)
  : option WorkspaceStats :=
  match workspaces st !! wid with
  | None => None
  | Some workspace =>
      Some {| ws_workspaceId := wid;
              ws_chains := size (chains workspace);
              ws_contracts := size (contracts workspace);
              ws_vulnerabilities :=
                countVulnerabilities (vulnerabilities workspace);
              ws_reports := size (reports workspace);
              ws_createdAt := createdAt workspace;
              ws_updatedAt := updatedAt workspace |}
  end.

(** The state in which a call leaves the manager and the disk. *)
Definition after {A : Type} (o : outcome A) : State :=
  match o with
  | Returned _ st => st
  | Thrown _ st => st
  end.


(** [getWorkspaceInfo]. *)
Definition getWorkspaceInfo (wid : string) (st : State)
  : option ChainWorkspace :=
  workspaces st !! wid.

(** [getCurrentWorkspace]. *)
Definition getCurrentWorkspace (st : State) : option string :=
  currentWorkspace st.

(** [switchWorkspace]. *)
Definition switchWorkspace (wid : string) (st : State) : bool * State :=
  match loadWorkspace wid st with
  | (Some _, st1) => (true, set_current (Some wid) st1)
  | (None, st1) => (false, st1)
  end.

(** One round of the loop of [addContractMultiChain], on the workspace
    object and the state. *)
Definition addContractMultiChain_step (contractAddress : string)
    (contractData : gmap string value) (acc : ChainWorkspace * State)
    (chain : string) : ChainWorkspace * State :=
  let '(workspace, st) := acc in
  let perChain := default ∅ (contracts workspace !! contractAddress) in
  let '(addedAt, st1) := new_Date st in
  let record : gmap string value :=
    contractData ∪ <["address" := VStr contractAddress]>
                    (<["chain" := VStr chain]>
                       (<["addedAt" := VDate addedAt]> ∅)) in
  let w1 :=
    set_contracts
      (<[contractAddress := <[chain := record]> perChain]>
         (contracts workspace)) workspace in
  (on_chain chain (push_contract contractAddress) w1, st1).

Definition addContractMultiChain (wid contractAddress : string)
    (chs : list string) (contractData : gmap string value) (st : State)
  : outcome unit :=
  match loadWorkspace wid st with
  | (None, st1) => notFound wid st1
  | (Some workspace, st1) =>
      let '(w, st2) :=
        fold_left (addContractMultiChain_step contractAddress contractData)
          chs (workspace, st1) in
      let '(_, st3) := saveWorkspace wid w st2 in
      Returned tt st3
  end.

(** [deleteWorkspace]: [fs.promises.rm(workspacePath, { recursive: true })]
    removes the directory with everything below it, that is every path
    whose first component is [wid].  As in [write_doc], [workspacePath] is
    the directory of [wid] alone when [Js.plain wid]. *)
Definition deleteWorkspace (wid : string) (st : State) : bool * State :=
  if decide ([wid] ∈ dirs st) then
    (true,
     {| config := config st;
        workspaces := delete wid (workspaces st);
        currentWorkspace := None;
        docs := delete wid (docs st);
        files := filter (fun e => head (fst e) <> Some wid) (files st);
        dirs := filter (fun p => head p <> Some wid) (dirs st);
        ticks := ticks st |})
  else (false, st).

End Store.

Arguments ChainState : clear implicits.
Arguments ChainWorkspace : clear implicits.
Arguments State : clear implicits.
Arguments outcome : clear implicits.
Arguments Returned {Vuln A} a st.
Arguments Thrown {Vuln A} message st.
Arguments WorkspaceStats : clear implicits.

End Workspace.

(** ** Sample inputs *)

Module Samples.

Import Js Consensus.

(** A finding at (Bank.sol, 10, critical) as a tool hands it in, with tier
    [low] and score 0. *)
Definition bankFinding (name what : string) : Vulnerability :=
  {| id := name; title := what; severity := critical;
     description := what +:+ " in withdraw";
     location := {| file := "Bank.sol"; lineStart := 10; lineEnd := 14 |};
     tools := []; confidence := Some conf_low; confidenceScore := Num 0;
     recommendation := "Review withdraw" |}.

(** slither and mythril report different issues at the same place, once
    each. *)
Definition twoTools : list ToolResult :=
  [ mkToolResult "slither" [bankFinding "S-1" "Reentrancy"] (Num 1);
    mkToolResult "mythril" [bankFinding "M-1" "Integer overflow"] (Num 1) ].

(** mythril and the reasoning source report different issues at the same
    place, once each. *)
Definition withAi : list ToolResult :=
  [ mkToolResult "mythril" [bankFinding "M-1" "Integer overflow"] (Num 1);
    mkToolResult "ai" [bankFinding "A-1" "Reentrancy"] (Num 1) ].

(** A consensus finding of slither and mythril, scored with the sum of
    their weights. *)
Definition agreedFinding : Vulnerability :=
  {| id := "V-1"; title := "Reentrancy"; severity := critical;
     description := "External call before state update";
     location := {| file := "Bank.sol"; lineStart := 10; lineEnd := 14 |};
     tools := [("slither", true); ("mythril", true)];
     confidence := Some conf_medium; confidenceScore := Num 0.7;
     recommendation := "Use a reentrancy guard" |}.


Import Workspace.

(** A clock that advances by one millisecond per reading. *)
Definition ticking (n : nat) : Date := Z.of_nat n.

(** A workspace left on disk by an earlier session: one contract on
    ethereum with one vulnerability. *)
Definition audited : ChainWorkspace string :=
  {| workspaceId := "w1";
     chains := {[ "ethereum" :=
                    {| cs_contracts := ["0xAA"];
                       cs_vulnerabilities := ["reentrancy"];
                       cs_reports := []; cs_config := ∅ |} ]};
     contracts := {[ "0xAA" := {[ "ethereum" := {[ "name" := VStr "Bank" ]} ]} ]};
     vulnerabilities := {[ "0xAA:ethereum" := ["reentrancy"] ]};
     reports := ∅;
     createdAt := (-20)%Z; updatedAt := (-10)%Z |}.

(** A manager constructed over that disk. *)
Definition resumed : State string :=
  new_manager DEFAULT_CONFIG {[ "w1" := audited ]} ∅ {[ ["w1"] ]}.

End Samples.

(** * Properties of the consensus engine *)

Section ConsensusEngine.

Import Js Consensus.

(** ** The loop of [combineResults] *)

Lemma loop_step_failed (gs : list (list Vulnerability)) :
  fold_left loop_step gs None = None.
Proof. induction gs as [|g gs IH]; simpl; auto. Qed.

(** The loop pushes the result of [processGroup] for each group, in order,
    and hands the outer counters through unchanged. *)
Lemma loop_step_fold (gs : list (list Vulnerability)) (outer : Stats)
    (acc : list Vulnerability) :
  fold_left loop_step gs (Some (outer, acc))
  = (fun vs => (outer, acc ++ vs)) <$> mapM processGroup gs.
Proof.
  revert acc. induction gs as [|g gs IH]; intros acc; simpl.
  - by rewrite app_nil_r.
  - destruct (processGroup g) as [v|]; simpl.
    + rewrite IH. destruct (mapM processGroup gs) as [vs|]; simpl; [|done].
      by rewrite <- app_assoc.
    + apply loop_step_failed.
Qed.

Lemma combineResults_unfold (results : list ToolResult) :
  combineResults results
  = (fun vs =>
       {| cr_vulnerabilities := vs;
          consensus := {| total := length (groupFindings results);
                          agreed := 0; conflicts := 0; overrides := 0 |};
          cr_toolWeights := toolWeights |})
    <$> mapM processGroup (groupFindings results).
Proof.
  unfold combineResults. rewrite loop_step_fold.
  by destruct (mapM processGroup (groupFindings results)).
Qed.

(** ** Groups are never empty *)

Lemma assoc_set_Forall {A : Type} (P : A -> Prop) (k : string) (a : A)
    (m : list (string * A)) :
  P a -> Forall (fun e => P (snd e)) m ->
  Forall (fun e => P (snd e)) (assoc_set k a m).
Proof.
  intros Ha Hm. induction Hm as [|[k' a'] m Hk Hm IH]; simpl.
  - by constructor.
  - destruct (String.eqb k k'); constructor; auto.
Qed.

Lemma group_push_nonempty (key : string) (v : Vulnerability)
    (groups : list (string * list Vulnerability)) :
  Forall (fun e => snd e <> []) groups ->
  Forall (fun e => snd e <> []) (group_push key v groups).
Proof.
  intros H. unfold group_push.
  apply (assoc_set_Forall (fun g : list Vulnerability => g <> [])); [|done].
  by destruct (default [] (assoc key groups)).
Qed.

Lemma groupFindings_map_nonempty (results : list ToolResult) :
  Forall (fun e => snd e <> []) (groupFindings_map results).
Proof.
  unfold groupFindings_map.
  cut (forall groups : list (string * list Vulnerability),
         Forall (fun e => snd e <> []) groups ->
         Forall (fun e => snd e <> [])
           (fold_left
              (fun groups result =>
                 fold_left
                   (fun groups vuln =>
                      group_push (identityKey vuln)
                        (vulnWithTool (tool result) vuln) groups)
                   (vulnerabilities result) groups)
              results groups)).
  { intros H. apply H. constructor. }
  induction results as [|r results IH]; intros groups Hg; simpl; [done|].
  apply IH. clear IH. revert groups Hg.
  induction (vulnerabilities r) as [|v vs IHv]; intros groups Hg; simpl; [done|].
  apply IHv. by apply group_push_nonempty.
Qed.

Lemma groupFindings_nonempty (results : list ToolResult) :
  Forall (fun g => g <> []) (groupFindings results).
Proof.
  unfold groupFindings. apply Forall_fmap.
  apply (groupFindings_map_nonempty results).
Qed.

Lemma resolveConflict_nonempty (group : list Vulnerability)
    (f : Vulnerability) (rest : list Vulnerability) :
  is_Some (resolveConflict group (f :: rest)).
Proof.
  unfold resolveConflict.
  destruct (List.find (detected_by mostTrusted) (f :: rest)); simpl; eauto.
Qed.

Lemma processGroup_nonempty (group : list Vulnerability) :
  group <> [] -> is_Some (processGroup group).
Proof.
  destruct group as [|a [|b rest]]; [done| |]; intros _.
  - unfold processGroup; simpl. eauto.
  - unfold processGroup, calculateConsensus.
    destruct (2 <=? length (agreedTools (a :: b :: rest))); simpl.
    + eauto.
    + apply resolveConflict_nonempty.
Qed.

(** [combineResults] returns for every input. *)
Lemma combineResults_returns (results : list ToolResult) :
  is_Some (combineResults results).
Proof.
  rewrite combineResults_unfold. apply fmap_is_Some.
  apply mapM_is_Some. eapply Forall_impl; [apply groupFindings_nonempty|].
  intros g Hg. by apply processGroup_nonempty.
Qed.

(** The [i]-th finding of the result is what the loop body makes of the
    [i]-th group. *)
Lemma combineResults_lookup (results : list ToolResult) (r : ConsensusResult)
    (i : nat) (group : list Vulnerability) :
  combineResults results = Some r ->
  groupFindings results !! i = Some group ->
  cr_vulnerabilities r !! i = processGroup group.
Proof.
  rewrite combineResults_unfold. intros Hr Hi.
  destruct (mapM processGroup (groupFindings results)) as [vs|] eqn:Hm;
    simpl in Hr; [|done].
  injection Hr as <-. simpl.
  apply mapM_Some in Hm.
  destruct (Forall2_lookup_l _ _ _ _ _ Hm Hi) as (y & Hy & Hp).
  by rewrite Hy, Hp.
Qed.

(** ** Findings reported once by each of several tools *)

(** C1. In the scenario [{slither: [F], mythril: [F'], echidna: []}] with
    both findings at (Bank.sol, 10, critical), [combineResults] returns one
    finding and [total = 1], but the group is not a consensus hit: each tool
    has a count of 1, no tool reaches the count of 2 that [agreedTools]
    asks for, and [resolveConflict], finding no report of the most trusted
    tool, hands back slither's finding as it came in, with [tools =
    {slither}] and with F's own confidence and score. *)
Theorem two_sources_scenario
    (id1 title1 descr1 rec1 id2 title2 descr2 rec2 : string)
    (end1 end2 : Z) (tools1 tools2 : list (string * bool))
    (conf1 conf2 : option Confidence) (score1 score2 n1 n2 n3 : number) :
  let F :=
    {| id := id1; title := title1; severity := critical;
       description := descr1;
       location := {| file := "Bank.sol"; lineStart := 10; lineEnd := end1 |};
       tools := tools1; confidence := conf1; confidenceScore := score1;
       recommendation := rec1 |} in
  let F' :=
    {| id := id2; title := title2; severity := critical;
       description := descr2;
       location := {| file := "Bank.sol"; lineStart := 10; lineEnd := end2 |};
       tools := tools2; confidence := conf2; confidenceScore := score2;
       recommendation := rec2 |} in
  combineResults
    [ mkToolResult "slither" [F] n1; mkToolResult "mythril" [F'] n2;
      mkToolResult "echidna" [] n3 ]
  = Some {| cr_vulnerabilities := [vulnWithTool "slither" F];
            consensus := {| total := 1; agreed := 0; conflicts := 0;
                            overrides := 0 |};
            cr_toolWeights := toolWeights |}.
Proof. intros F F'. subst F F'. vm_compute. reflexivity. Qed.

(** C2. Three tools reporting the same (Vault.sol, 42, high) key once each
    do not make a consensus hit either: the result is slither's finding
    with the confidence and score it came in with, so its tier is [high]
    only if the input said so. *)
Theorem three_sources_scenario
    (id1 title1 descr1 rec1 id2 title2 descr2 rec2 id3 title3 descr3 rec3 : string)
    (end1 end2 end3 : Z) (tools1 tools2 tools3 : list (string * bool))
    (conf1 conf2 conf3 : option Confidence)
    (score1 score2 score3 n1 n2 n3 : number) :
  let F1 :=
    {| id := id1; title := title1; severity := high; description := descr1;
       location := {| file := "Vault.sol"; lineStart := 42; lineEnd := end1 |};
       tools := tools1; confidence := conf1; confidenceScore := score1;
       recommendation := rec1 |} in
  let F2 :=
    {| id := id2; title := title2; severity := high; description := descr2;
       location := {| file := "Vault.sol"; lineStart := 42; lineEnd := end2 |};
       tools := tools2; confidence := conf2; confidenceScore := score2;
       recommendation := rec2 |} in
  let F3 :=
    {| id := id3; title := title3; severity := high; description := descr3;
       location := {| file := "Vault.sol"; lineStart := 42; lineEnd := end3 |};
       tools := tools3; confidence := conf3; confidenceScore := score3;
       recommendation := rec3 |} in
  combineResults
    [ mkToolResult "slither" [F1] n1; mkToolResult "mythril" [F2] n2;
      mkToolResult "echidna" [F3] n3 ]
  = Some {| cr_vulnerabilities := [vulnWithTool "slither" F1];
            consensus := {| total := 1; agreed := 0; conflicts := 0;
                            overrides := 0 |};
            cr_toolWeights := toolWeights |}.
Proof. intros F1 F2 F3. subst F1 F2 F3. vm_compute. reflexivity. Qed.

(** ** Singleton groups *)

(** One tool, one finding: the finding comes out with tier [low] and score
    NaN. *)
Lemma one_finding_result (t : string) (v : Vulnerability) (n : number) :
  combineResults [mkToolResult t [v] n]
  = Some {| cr_vulnerabilities :=
              [with_confidence (Some conf_low) NaN (vulnWithTool t v)];
            consensus := {| total := 1; agreed := 0; conflicts := 0;
                            overrides := 0 |};
            cr_toolWeights := toolWeights |}.
Proof. reflexivity. Qed.

(** C3. A finding that is alone in its group comes out with tier [low] and
    with score NaN, whatever the tool that reported it: the score is
    computed from [this.toolWeights[finding.tool]], and a finding has no
    [tool]. *)
Theorem singleton_score (results : list ToolResult) (i : nat)
    (finding : Vulnerability) :
  groupFindings results !! i = Some [finding] ->
  exists r : ConsensusResult,
    combineResults results = Some r
    /\ cr_vulnerabilities r !! i
       = Some (with_confidence (Some conf_low) NaN finding).
Proof.
  intros Hi.
  destruct (combineResults_returns results) as [r Hr].
  exists r. split; [exact Hr|].
  rewrite (combineResults_lookup _ _ _ _ Hr Hi). reflexivity.
Qed.

(** [singleton_score] for a finding that slither alone reports; the weight
    of slither times 50 would be 0.40 * 50. *)
Lemma singleton_score_witness :
  exists r : ConsensusResult,
    combineResults
      [mkToolResult "slither" [Samples.bankFinding "S-1" "Reentrancy"] (Num 1)]
    = Some r
    /\ (confidenceScore <$> cr_vulnerabilities r !! 0) = Some NaN
    /\ (confidence <$> cr_vulnerabilities r !! 0) = Some (Some conf_low)
    /\ mul (weight "slither") (Num 50) = Num (0.40 * 50).
Proof.
  destruct (singleton_score
              [mkToolResult "slither" [Samples.bankFinding "S-1" "Reentrancy"]
                 (Num 1)]
              0 (vulnWithTool "slither" (Samples.bankFinding "S-1" "Reentrancy"))
              eq_refl) as (r & Hr & Hv).
  exists r. split; [exact Hr|]. rewrite Hv. repeat split.
Defined.

(** ** Two tools with two findings each *)

(** When slither and mythril both report the place twice the agreed path is
    taken; the score is the sum of the two weights and the tier that is
    written is [undefined]. *)
Lemma agreed_path_tier :
  let F := Samples.bankFinding "F" "Reentrancy" in
  (fun r => map (fun v => (tools v, confidence v, confidenceScore v))
              (cr_vulnerabilities r))
    <$> combineResults
          [mkToolResult "slither" [F; F] (Num 1);
           mkToolResult "mythril" [F; F] (Num 1)]
  = Some [([("slither", true); ("mythril", true)], None,
           Num (0 + 0.40 + 0.30))].
Proof. reflexivity. Qed.

(** ** The counters *)

(** C5. [combineResults] returns for every input, [total] is the number of
    groups, and [agreed], [conflicts] and [overrides] are 0 whatever paths
    the groups took. *)
Theorem stats_counters (results : list ToolResult) :
  exists vs : list Vulnerability,
    combineResults results
    = Some {| cr_vulnerabilities := vs;
              consensus := {| total := length (groupFindings results);
                              agreed := 0; conflicts := 0; overrides := 0 |};
              cr_toolWeights := toolWeights |}
    /\ length vs = length (groupFindings results).
Proof.
  destruct (combineResults_returns results) as [r Hr].
  pose proof Hr as Hr'. rewrite combineResults_unfold in Hr'.
  destruct (mapM processGroup (groupFindings results)) as [vs|] eqn:Hm;
    simpl in Hr'; [|done].
  exists vs. split.
  - rewrite combineResults_unfold, Hm. reflexivity.
  - symmetry. apply (length_mapM _ _ _ Hm).
Qed.

(** ** The conflict path *)








(** ** reduceFalsePositives *)

(** [adjustConfidence] touches the tier and the score only, and never
    moves a tier to [low]. *)
Lemma adjustConfidence_frame (vuln : Vulnerability) :
  exists (c : option Confidence) (s : number),
    adjustConfidence vuln = with_confidence c s vuln
    /\ (conf_is c conf_low = true -> conf_is (confidence vuln) conf_low = true).
Proof.
  unfold adjustConfidence.
  destruct (Severity_eqb (severity vuln) critical
            && ltb (confidenceScore vuln) (Num 80));
    [|destruct (Severity_eqb (severity vuln) high
                && ltb (confidenceScore vuln) (Num 70))];
    destruct (2 <=? length (tools vuln));
    eexists _, _; (split; [reflexivity|]);
    destruct (confidence vuln) as [[]|]; simpl; done.
Qed.

(** A finding that passed the filter passes it again after adjustment. *)
Lemma adjustConfidence_keeps (vuln : Vulnerability) :
  isLikelyFalsePositive vuln = false ->
  isLikelyFalsePositive (adjustConfidence vuln) = false.
Proof.
  destruct (adjustConfidence_frame vuln) as (c & s & -> & Hlow).
  unfold isLikelyFalsePositive; simpl.
  destruct (conf_is c conf_low).
  - rewrite (Hlow eq_refl). done.
  - rewrite !andb_false_r, !orb_false_r. simpl.
    intros H. apply orb_false_iff in H as [H _].
    apply orb_false_iff in H as [H HB].
    apply orb_false_iff in H as [_ HA].
    rewrite HA, HB. done.
Qed.

(** C8, as stated, fails: a critical finding of two tools with score 0.7
    leaves the first pass with score 35.7 and the second with score 70.7. *)
Lemma reduceFalsePositives_twice_counterexample :
  reduceFalsePositives (reduceFalsePositives [Samples.agreedFinding])
  <> reduceFalsePositives [Samples.agreedFinding].
Proof. vm_compute. intros H. discriminate H. Qed.

(** C8, amended. The second pass drops nothing that the first pass kept,
    and adjusts every finding once more. *)
Theorem reduceFalsePositives_twice (vulns : list Vulnerability) :
  reduceFalsePositives (reduceFalsePositives vulns)
  = map adjustConfidence (reduceFalsePositives vulns).
Proof.
  induction vulns as [|vuln rest IH]; simpl; [done|].
  destruct (isLikelyFalsePositive vuln) eqn:E; [exact IH|].
  simpl. rewrite (adjustConfidence_keeps _ E). by rewrite IH.
Qed.

End ConsensusEngine.

(** * Properties of the workspace manager *)

Section WorkspaceStore.

Import Js Workspace.

Context {Vuln : Type}.
Variable clock : nat -> Date.

Implicit Types (st : State Vuln) (w : ChainWorkspace Vuln).

(** ** Saving and loading *)

Lemma saveWorkspace_spec (wid : string) w st :
  exists st',
    saveWorkspace clock wid w st = (set_updatedAt (clock (ticks st)) w, st')
    /\ docs st' = <[wid := w]> (docs st)
    /\ workspaces st'
       = <[wid := set_updatedAt (clock (ticks st)) w]> (workspaces st)
    /\ ticks st' = S (ticks st)
    /\ config st' = config st.
Proof.
  unfold saveWorkspace.
  destruct (decide ([wid] ∈ dirs st)); eexists; repeat split.
Qed.

Lemma loadWorkspace_Some (wid : string) st w st1 :
  loadWorkspace wid st = (Some w, st1) ->
  ticks st1 = ticks st /\ docs st1 = docs st /\ config st1 = config st
  /\ workspaces st1 !! wid = Some w.
Proof.
  unfold loadWorkspace.
  destruct (workspaces st !! wid) as [w0|] eqn:Hm.
  - intros [= <- <-]. done.
  - destruct (docs st !! wid) as [w0|] eqn:Hd; [|done].
    intros [= <- <-]. simpl. by rewrite lookup_insert_eq.
Qed.

(** [on_chain] for a chain without entry does nothing. *)
Lemma on_chain_None (chain : string) (f : ChainState Vuln -> ChainState Vuln) w :
  chains w !! chain = None -> on_chain chain f w = w.
Proof. intros H. unfold on_chain. by rewrite H. Qed.

Lemma on_chain_chains (chain : string) (f : ChainState Vuln -> ChainState Vuln) w
    (cs : ChainState Vuln) :
  chains w !! chain = Some cs ->
  chains (on_chain chain f w) !! chain = Some (f cs).
Proof.
  intros H. unfold on_chain. rewrite H. simpl. apply lookup_insert_eq.
Qed.

Lemma on_chain_frame (chain : string) (f : ChainState Vuln -> ChainState Vuln) w :
  contracts (on_chain chain f w) = contracts w
  /\ vulnerabilities (on_chain chain f w) = vulnerabilities w
  /\ reports (on_chain chain f w) = reports w
  /\ updatedAt (on_chain chain f w) = updatedAt w.
Proof. unfold on_chain. by destruct (chains w !! chain). Qed.

(** ** Counting vulnerabilities *)


(** ** What each mutating call leaves in memory and on disk *)


Lemma addContract_spec (wid contractAddress chain : string)
    (contractData : gmap string value) st w st1 :
  loadWorkspace wid st = (Some w, st1) ->
  let record : gmap string value :=
    contractData ∪ <["address" := VStr contractAddress]>
                    (<["chain" := VStr chain]>
                       (<["addedAt" := VDate (clock (ticks st))]> ∅)) in
  let w' :=
    on_chain chain (push_contract contractAddress)
      (set_contracts
         (<[contractAddress :=
              <[chain := record]> (default ∅ (contracts w !! contractAddress))]>
            (contracts w)) w) in
  exists st',
    addContract clock wid contractAddress chain contractData st = Returned tt st'
    /\ docs st' !! wid = Some w'
    /\ workspaces st' !! wid
       = Some (set_updatedAt (clock (S (ticks st))) w').
Proof.
  intros Hl record w'. subst record w'.
  unfold addContract, new_Date. rewrite Hl.
  destruct (loadWorkspace_Some _ _ _ _ Hl) as (Ht & _).
  cbv beta iota zeta. rewrite Ht.
  match goal with
  | |- context [saveWorkspace clock wid ?w ?s] =>
      destruct (saveWorkspace_spec wid w s) as (st' & Hs & Hd & Hw & _)
  end.
  rewrite Hs. exists st'. split; [reflexivity|].
  rewrite Hd, Hw, !lookup_insert_eq. done.
Qed.

Lemma addVulnerabilities_spec (wid contractAddress chain : string)
    (vulns : list Vuln) st w st1 :
  loadWorkspace wid st = (Some w, st1) ->
  let w' :=
    on_chain chain (push_vulnerabilities vulns)
      (set_vulnerabilities
         (<[contractKey contractAddress chain := vulns]> (vulnerabilities w)) w) in
  exists st',
    addVulnerabilities clock wid contractAddress chain vulns st = Returned tt st'
    /\ docs st' !! wid = Some w'
    /\ workspaces st' !! wid = Some (set_updatedAt (clock (ticks st)) w').
Proof.
  intros Hl w'. unfold addVulnerabilities. rewrite Hl.
  destruct (loadWorkspace_Some _ _ _ _ Hl) as (Ht & _).
  fold w'.
  destruct (saveWorkspace_spec wid w' st1) as (st' & Hs & Hd & Hw & _).
  rewrite Hs. exists st'. split; [reflexivity|].
  rewrite Hd, Hw, !lookup_insert_eq, Ht. done.
Qed.


(** ** Replace at the contract, append at the chain *)


(** ** Creating a workspace twice *)


(** ** Chains without entry *)

(** C9, for the chains whose name no object inherits. On a workspace that
    can be loaded and has no entry for [chain], where [chain] is not the
    name of a member of [Object.prototype], [addContract] (for an address
    that is not such a name either) and [addVulnerabilities] return; the
    first stores the metadata at [contracts[address][chain]], the second
    stores the list at the key of the contract, and the [chains] map, in
    memory and on disk, is the one the workspace had. For a chain such as
    ["toString"] the guard [workspace.chains[chain]] of the source is
    truthy without an entry and the call throws. *)
Theorem unknown_chain_frame (wid contractAddress chain : string) st w st1 :
  loadWorkspace wid st = (Some w, st1) ->
  chains w !! chain = None ->
  inherited chain = false ->
  (inherited contractAddress = false ->
   forall contractData : gmap string value,
     exists st' w' d,
       addContract clock wid contractAddress chain contractData st
       = Returned tt st'
       /\ getWorkspaceInfo wid st' = Some w'
       /\ docs st' !! wid = Some d
       /\ (contracts w' !! contractAddress ≫= fun per => per !! chain)
          = Some (contractData
                    ∪ <["address" := VStr contractAddress]>
                        (<["chain" := VStr chain]>
                           (<["addedAt" := VDate (clock (ticks st))]> ∅)))
       /\ contracts d = contracts w'
       /\ chains w' = chains w /\ chains d = chains w)
  /\ (forall vulns : list Vuln,
        exists st' w' d,
          addVulnerabilities clock wid contractAddress chain vulns st
          = Returned tt st'
          /\ getWorkspaceInfo wid st' = Some w'
          /\ docs st' !! wid = Some d
          /\ vulnerabilities w' !! contractKey contractAddress chain
             = Some vulns
          /\ vulnerabilities d = vulnerabilities w'
          /\ chains w' = chains w /\ chains d = chains w).
Proof.
  intros Hl Hc _. split.
  - intros _ data.
    destruct (addContract_spec wid contractAddress chain data st w st1 Hl)
      as (st' & Hr & Hd & Hw).
    rewrite on_chain_None in Hd, Hw by exact Hc.
    eexists st', _, _. split; [exact Hr|]. split; [exact Hw|].
    split; [exact Hd|]. simpl. rewrite lookup_insert_eq. simpl.
    rewrite lookup_insert_eq. done.
  - intros vulns.
    destruct (addVulnerabilities_spec wid contractAddress chain vulns st w st1 Hl)
      as (st' & Hr & Hd & Hw).
    rewrite on_chain_None in Hd, Hw by exact Hc.
    eexists st', _, _. split; [exact Hr|]. split; [exact Hw|].
    split; [exact Hd|]. simpl. rewrite lookup_insert_eq. done.
Qed.

(** ** The time stamp on disk *)


End WorkspaceStore.

(** * The workspace properties on a resumed session *)

Section ResumedSession.

Import Js Workspace.

Lemma resumed_loads :
  loadWorkspace "w1" Samples.resumed = (Some Samples.audited, Samples.resumed).
Proof. reflexivity. Qed.



(** [unknown_chain_frame] on the resumed workspace, which has no entry for
    "solana". *)
Lemma unknown_chain_frame_witness :
  (exists st' w',
     addContract Samples.ticking "w1" "0xBB" "solana" {[ "name" := VStr "Swap" ]}
       Samples.resumed = Returned tt st'
     /\ getWorkspaceInfo "w1" st' = Some w'
     /\ chains w' = chains Samples.audited)
  /\ (exists st' w',
        addVulnerabilities Samples.ticking "w1" "0xBB" "solana" ["overflow"]
          Samples.resumed = Returned tt st'
        /\ getWorkspaceInfo "w1" st' = Some w'
        /\ vulnerabilities w' !! "0xBB:solana" = Some ["overflow"]
        /\ chains w' = chains Samples.audited).
Proof.
  destruct (unknown_chain_frame Samples.ticking "w1" "0xBB" "solana"
              Samples.resumed Samples.audited Samples.resumed
              eq_refl eq_refl eq_refl) as [Hc Hv].
  split.
  - destruct (Hc eq_refl {[ "name" := VStr "Swap" ]})
      as (st' & w' & d & Hr & Hw & _ & _ & _ & Hch & _).
    exists st', w'. repeat split; assumption.
  - destruct (Hv ["overflow"])
      as (st' & w' & d & Hr & Hw & _ & Hl & _ & Hch & _).
    exists st', w'. repeat split; assumption.
Defined.


End ResumedSession.

(** * Grouping, consensus and filtering: further properties *)

Section GroupingKeys.

Import Js Consensus.
Import Stdlib.Strings.Ascii.

(** ** Strings as lists of characters *)

Lemma chars_app (s1 s2 : string) :
  String.list_ascii_of_string (s1 +:+ s2)
  = String.list_ascii_of_string s1 ++ String.list_ascii_of_string s2.
Proof. induction s1 as [|c s1 IH]; simpl; [done|]. by rewrite IH. Qed.

Lemma chars_inj (s1 s2 : string) :
  String.list_ascii_of_string s1 = String.list_ascii_of_string s2 -> s1 = s2.
Proof.
  intros H. rewrite <- (String.string_of_list_ascii_of_string s1),
    <- (String.string_of_list_ascii_of_string s2). by rewrite H.
Qed.

(** Two splittings of a list at a separator that does not occur after it
    are the same splitting. *)
Lemma split_at_last {A : Type} (c : A) (s1 s2 t1 t2 : list A) :
  c ∉ t1 -> c ∉ t2 -> s1 ++ c :: t1 = s2 ++ c :: t2 -> s1 = s2 /\ t1 = t2.
Proof.
  intros H1 H2. revert s2.
  induction s1 as [|x s1 IH]; intros [|y s2] H; simpl in H.
  - by injection H.
  - injection H as _ ->. exfalso. apply H1, elem_of_app. right. left.
  - injection H as _ <-. exfalso. apply H2, elem_of_app. right. left.
  - injection H as -> H. destruct (IH _ H) as [-> ->]. done.
Qed.

(** The same for a separator that does not occur before it. *)
Lemma split_at_first {A : Type} (c : A) (s1 s2 t1 t2 : list A) :
  c ∉ s1 -> c ∉ s2 -> s1 ++ c :: t1 = s2 ++ c :: t2 -> s1 = s2 /\ t1 = t2.
Proof.
  revert s2.
  induction s1 as [|x s1 IH]; intros [|y s2] H1 H2 H; simpl in H.
  - by injection H.
  - injection H as <- _. exfalso. apply H2. left.
  - injection H as -> _. exfalso. apply H1. left.
  - injection H as -> H.
    destruct (IH s2) as [-> ->]; [| |done|done].
    + intros ?. apply H1. by right.
    + intros ?. apply H2. by right.
Qed.

Lemma regroup {A : Type} (f p s : list A) (c d : A) :
  f ++ c :: p ++ d :: s = (f ++ c :: p) ++ d :: s.
Proof. by rewrite <- app_assoc. Qed.

(** ** Decimal numerals have no colon *)

Lemma pretty_N_char_no_colon (d : N) : pretty_N_char d <> ":"%char.
Proof. unfold pretty_N_char. by repeat case_match. Qed.

Lemma pretty_N_go_no_colon (x : N) (s : string) :
  ":"%char ∉ String.list_ascii_of_string s ->
  ":"%char ∉ String.list_ascii_of_string (pretty_N_go x s).
Proof.
  revert s. induction (N.lt_wf_0 x) as [x _ IH]; intros s Hs.
  destruct (decide (0 < x)%N) as [Hx|Hx].
  - rewrite pretty_N_go_step by done. apply IH.
    + by apply N.div_lt.
    + simpl. intros [E|?]%elem_of_cons; [|done].
      by apply (pretty_N_char_no_colon (x `mod` 10)%N).
  - assert (x = 0%N) as -> by lia. by rewrite pretty_N_go_0.
Qed.

Lemma pretty_Z_no_colon (z : Z) :
  ":"%char ∉ String.list_ascii_of_string (pretty z).
Proof.
  assert (forall p : positive,
            ":"%char ∉ String.list_ascii_of_string (pretty p)) as Hp.
  { intros p. unfold pretty, pretty_positive, pretty, pretty_N.
    case_decide; [discriminate|].
    apply pretty_N_go_no_colon. simpl. apply not_elem_of_nil. }
  destruct z as [|p|p]; unfold pretty, pretty_Z.
  - rewrite list_elem_of_In. simpl. intuition discriminate.
  - apply Hp.
  - rewrite chars_app. simpl. intros [E|?]%elem_of_cons; [done|].
    by apply (Hp p).
Qed.

Lemma severity_name_no_dash (s : Severity) :
  "-"%char ∉ String.list_ascii_of_string (severity_name s).
Proof.
  destruct s; rewrite list_elem_of_In; simpl; intuition discriminate.
Qed.

Lemma severity_name_inj (s1 s2 : Severity) :
  severity_name s1 = severity_name s2 -> s1 = s2.
Proof. by destruct s1, s2. Qed.

(** The key of a finding determines its file, its first line and its
    severity. *)
Theorem identityKey_inj (a b : Vulnerability) :
  identityKey a = identityKey b ->
  file (location a) = file (location b)
  /\ lineStart (location a) = lineStart (location b)
  /\ severity a = severity b.
Proof.
  unfold identityKey. intros H.
  apply (f_equal String.list_ascii_of_string) in H.
  rewrite !chars_app in H. simpl in H. rewrite !regroup in H.
  apply split_at_last in H as [H Hs]; [|apply severity_name_no_dash..].
  apply chars_inj, severity_name_inj in Hs.
  apply split_at_last in H as [Hf Hl]; [|apply pretty_Z_no_colon..].
  apply chars_inj in Hf. apply chars_inj in Hl.
  apply (inj pretty) in Hl. done.
Qed.


(** ** The map built by groupFindings *)


Lemma assoc_set_keys {A : Type} (k : string) (a : A) (m : list (string * A)) :
  map fst (assoc_set k a m)
  = match assoc k m with
    | Some _ => map fst m
    | None => map fst m ++ [k]
    end.
Proof.
  induction m as [|[k0 a0] m IH]; simpl; [done|].
  destruct (String.eqb k k0); simpl; [done|].
  rewrite IH. by destruct (assoc k m).
Qed.

Lemma assoc_None {A : Type} (k : string) (m : list (string * A)) :
  assoc k m = None -> k ∉ map fst m.
Proof.
  induction m as [|[k0 a0] m IH]; simpl; [intros _; apply not_elem_of_nil|].
  destruct (String.eqb k k0) eqn:E; [done|].
  apply String.eqb_neq in E. intros H [?|?]%elem_of_cons; [done|]. by apply IH.
Qed.

Lemma assoc_Some {A : Type} (k : string) (a : A) (m : list (string * A)) :
  assoc k m = Some a -> (k, a) ∈ m.
Proof.
  induction m as [|[k0 a0] m IH]; simpl; [done|].
  destruct (String.eqb k k0) eqn:E.
  - apply String.eqb_eq in E as ->. intros [= ->]. left.
  - intros H. right. by apply IH.
Qed.


Lemma assoc_set_NoDup {A : Type} (k : string) (a : A) (m : list (string * A)) :
  NoDup (map fst m) -> NoDup (map fst (assoc_set k a m)).
Proof.
  intros H. rewrite assoc_set_keys. destruct (assoc k m) eqn:E; [done|].
  apply NoDup_app. split; [done|]. split.
  - intros x Hx [->|?]%elem_of_cons; [|by eapply not_elem_of_nil].
    by apply (assoc_None _ _ E).
  - apply NoDup_singleton.
Qed.

(** The entries of [assoc_set k a m]: the new one, and the old ones at other
    keys. *)
Lemma assoc_set_elem {A : Type} (k k' : string) (a a' : A)
    (m : list (string * A)) :
  (k', a') ∈ assoc_set k a m -> (k' = k /\ a' = a) \/ (k', a') ∈ m.
Proof.
  induction m as [|[k0 a0] m IH]; simpl.
  - intros [[= -> ->]|H]%elem_of_cons; [by left|by apply elem_of_nil in H].
  - destruct (String.eqb k k0) eqn:E.
    + apply String.eqb_eq in E as ->.
      intros [[= -> ->]|H]%elem_of_cons; [by left|]. right. by right.
    + intros [[= -> ->]|H]%elem_of_cons; [right; left|].
      destruct (IH H) as [?|?]; [by left|]. right. by right.
Qed.

Lemma groupFindings_map_fold (results : list ToolResult) :
  groupFindings_map results
  = fold_left (fun groups v => group_push (identityKey v) v groups)
      (flat_map (fun r => map (vulnWithTool (tool r)) (vulnerabilities r)) results) [].
Proof.
  unfold groupFindings_map. generalize (@nil (string * list Vulnerability)).
  induction results as [|r results IH]; intros groups; simpl; [done|].
  rewrite fold_left_app, IH. f_equal.
  generalize groups. clear.
  induction (vulnerabilities r) as [|v vs IHv]; intros groups; simpl; [done|].
  apply IHv.
Qed.

(** Pushing a finding that carries one tool keeps three facts: keys are
    distinct, the members of a group have the key of the group, and every
    member carries exactly one tool. *)
Lemma group_push_grouped (v : Vulnerability)
    (m : list (string * list Vulnerability)) :
  (exists t, tools v = [(t, true)]) ->
  (NoDup (map fst m)
   /\ forall k g x, (k, g) ∈ m -> x ∈ g ->
        identityKey x = k /\ exists t, tools x = [(t, true)]) ->
  NoDup (map fst (group_push (identityKey v) v m))
  /\ forall k g x, (k, g) ∈ group_push (identityKey v) v m -> x ∈ g ->
       identityKey x = k /\ exists t, tools x = [(t, true)].
Proof.
  intros Ht [Hnd Hm]. split.
  - by apply assoc_set_NoDup.
  - intros k g x Hin Hx. apply assoc_set_elem in Hin as [[-> ->]|Hin].
    + apply elem_of_app in Hx as [Hx|Hx].
      * destruct (assoc (identityKey v) m) as [g0|] eqn:E; simpl in Hx.
        -- apply (Hm _ g0); [by apply assoc_Some|done].
        -- by apply elem_of_nil in Hx.
      * apply list_elem_of_singleton in Hx as ->. done.
    + by apply (Hm k g).
Qed.

Lemma groupFindings_map_grouped (results : list ToolResult) :
  NoDup (map fst (groupFindings_map results))
  /\ forall k g x, (k, g) ∈ groupFindings_map results -> x ∈ g ->
       identityKey x = k /\ exists t, tools x = [(t, true)].
Proof.
  rewrite groupFindings_map_fold.
  assert (Forall (fun v => exists t, tools v = [(t, true)]) (flat_map (fun r => map (vulnWithTool (tool r)) (vulnerabilities r)) results))
    as Ht.
  { apply Forall_flat_map, Forall_forall. intros r _.
    apply Forall_fmap, Forall_forall. intros v _. by eexists. }
  assert (NoDup (map fst (@nil (string * list Vulnerability)))
          /\ forall k g x, (k, g) ∈ @nil (string * list Vulnerability) ->
               x ∈ g -> identityKey x = k /\ exists t, tools x = [(t, true)])
    as H0.
  { split; [constructor|]. intros k g v H. by apply elem_of_nil in H. }
  revert H0. generalize (@nil (string * list Vulnerability)).
  induction Ht as [|v vs Hv _ IH]; intros m Hm; simpl; [done|].
  apply IH. by apply group_push_grouped.
Qed.

(** X1. Grouping is by file, first line and severity, exactly. *)
Theorem groups_by_location_and_severity (results : list ToolResult)
    (i j : nat) (gi gj : list Vulnerability) (a b : Vulnerability) :
  groupFindings results !! i = Some gi ->
  groupFindings results !! j = Some gj ->
  a ∈ gi -> b ∈ gj ->
  i = j <-> (file (location a) = file (location b)
             /\ lineStart (location a) = lineStart (location b)
             /\ severity a = severity b).
Proof.
  unfold groupFindings. rewrite !list_lookup_fmap.
  destruct (groupFindings_map results !! i) as [[ki gi']|] eqn:Ei; [|done].
  destruct (groupFindings_map results !! j) as [[kj gj']|] eqn:Ej; [|done].
  simpl. intros [= <-] [= <-] Ha Hb.
  destruct (groupFindings_map_grouped results) as [Hnd Hm].
  destruct (Hm ki gi' a) as [Hka _]; [by eapply list_elem_of_lookup_2|done|].
  destruct (Hm kj gj' b) as [Hkb _]; [by eapply list_elem_of_lookup_2|done|].
  split.
  - intros ->. rewrite Ei in Ej. injection Ej as <- <-.
    apply identityKey_inj. congruence.
  - intros (Hf & Hl & Hs).
    assert (ki = kj) as Hk.
    { rewrite <- Hka, <- Hkb. unfold identityKey. by rewrite Hf, Hl, Hs. }
    eapply NoDup_lookup; [exact Hnd| |].
    + rewrite list_lookup_fmap, Ei. reflexivity.
    + rewrite list_lookup_fmap, Ej. simpl. by rewrite Hk.
Qed.

Lemma group_push_concat (k : string) (v : Vulnerability)
    (m : list (string * list Vulnerability)) :
  concat (map snd (group_push k v m)) ≡ₚ concat (map snd m) ++ [v].
Proof.
  unfold group_push. induction m as [|[k0 g0] m IH]; simpl; [done|].
  destruct (String.eqb k k0); simpl.
  - rewrite <- !app_assoc. apply Permutation_app_head, Permutation_app_comm.
  - rewrite IH. by rewrite app_assoc.
Qed.

(** X2. Grouping neither loses nor duplicates a finding: the groups, put end
    to end, are a rearrangement of all the findings handed in, each tagged
    with the tool of its result. *)
Theorem groupFindings_keeps_findings (results : list ToolResult) :
  concat (groupFindings results) ≡ₚ flat_map (fun r => map (vulnWithTool (tool r)) (vulnerabilities r)) results.
Proof.
  unfold groupFindings. rewrite groupFindings_map_fold.
  cut (forall m : list (string * list Vulnerability),
         concat (map snd
                   (fold_left (fun groups v => group_push (identityKey v) v groups)
                      (flat_map (fun r => map (vulnWithTool (tool r)) (vulnerabilities r)) results) m))
         ≡ₚ concat (map snd m) ++ flat_map (fun r => map (vulnWithTool (tool r)) (vulnerabilities r)) results).
  { intros H. apply (H []). }
  induction (flat_map (fun r => map (vulnWithTool (tool r)) (vulnerabilities r)) results) as [|v vs IH]; intros m; simpl.
  - by rewrite app_nil_r.
  - rewrite IH, group_push_concat, <- app_assoc. done.
Qed.


(** ** Counting tools *)










(** ** The finding emitted for a group *)

Lemma max_index_constant (n : nat) (l : list nat) :
  l <> [] -> Forall (fun x => x = n) l -> max_index l = n.
Proof.
  induction l as [|x l IH]; [done|]. intros _ [-> Hl]%Forall_cons.
  unfold max_index in *. cbn [fold_right].
  destruct l as [|y l]; [simpl; lia|]. rewrite IH by done. lia.
Qed.

Lemma find_severity (s : Severity) :
  List.find (fun k => severityMap k =? severityMap s)
    [critical; high; medium; low] = Some s.
Proof. by destruct s. Qed.

Lemma mergeFindings_key (k : string) (group : list Vulnerability)
    (ts : list string) :
  group <> [] ->
  (forall v, v ∈ group -> identityKey v = k) ->
  exists m, mergeFindings group ts = Some m /\ identityKey m = k.
Proof.
  destruct group as [|base rest]; [done|]. intros _ Hk.
  eexists. split; [reflexivity|].
  rewrite <- (Hk base) by left. unfold identityKey.
  cbn [location severity].
  rewrite (max_index_constant (severityMap (severity base))).
  - by rewrite find_severity.
  - done.
  - rewrite Forall_forall.
    intros x (s & -> & (v & -> & Hv)%list_elem_of_fmap)%list_elem_of_fmap.
    f_equal. apply identityKey_inj. rewrite (Hk v Hv). symmetry. apply Hk. left.
Qed.

Lemma processGroup_key (k : string) (group : list Vulnerability) :
  group <> [] ->
  (forall v, v ∈ group -> identityKey v = k) ->
  exists v, processGroup group = Some v /\ identityKey v = k.
Proof.
  intros Hne Hk. destruct group as [|a [|b rest]]; [done| |].
  - eexists. split; [reflexivity|]. apply (Hk a). left.
  - unfold processGroup, calculateConsensus.
    destruct (2 <=? length (agreedTools (a :: b :: rest))).
    + cbn [c_agreed c_finding].
      destruct (mergeFindings_key k (a :: b :: rest)
                  (agreedTools (a :: b :: rest)) Hne Hk) as (m & -> & Hm).
      eexists. split; [reflexivity|]. exact Hm.
    + cbn [c_agreed c_conflict c_findings length]. simpl (1 <? _).
      cbv iota. unfold resolveConflict.
      destruct (List.find (detected_by mostTrusted) (a :: b :: rest))
        as [trusted|] eqn:Hf.
      * eexists. split; [reflexivity|].
        apply find_some in Hf as [Hin _]. apply list_elem_of_In in Hin.
        rewrite <- (Hk trusted Hin). reflexivity.
      * eexists. split; [reflexivity|]. apply (Hk a). left.
Qed.

(** The key of the [i]-th group is the key of the [i]-th finding. *)
Lemma emitted_key (results : list ToolResult) (r : ConsensusResult)
    (i : nat) (k : string) (group : list Vulnerability) :
  combineResults results = Some r ->
  groupFindings_map results !! i = Some (k, group) ->
  exists v, cr_vulnerabilities r !! i = Some v /\ identityKey v = k.
Proof.
  intros Hr Hi.
  destruct (groupFindings_map_grouped results) as [_ Hm].
  assert (groupFindings results !! i = Some group) as Hg.
  { unfold groupFindings. by rewrite list_lookup_fmap, Hi. }
  rewrite (combineResults_lookup _ _ _ _ Hr Hg).
  apply processGroup_key.
  - pose proof (groupFindings_nonempty results) as Hne.
    rewrite Forall_forall in Hne. apply Hne.
    by eapply list_elem_of_lookup_2.
  - intros v Hv. apply (Hm k group v); [|done].
    by eapply list_elem_of_lookup_2.
Qed.

(** X6. The finding emitted for a group has the file, the first line and
    the severity of every member of the group. *)
Theorem emitted_at_the_place_of_its_group (results : list ToolResult)
    (r : ConsensusResult) (i : nat) (group : list Vulnerability) :
  combineResults results = Some r ->
  groupFindings results !! i = Some group ->
  exists v,
    cr_vulnerabilities r !! i = Some v
    /\ forall x, x ∈ group ->
         file (location v) = file (location x)
         /\ lineStart (location v) = lineStart (location x)
         /\ severity v = severity x.
Proof.
  intros Hr Hg. unfold groupFindings in Hg. rewrite list_lookup_fmap in Hg.
  destruct (groupFindings_map results !! i) as [[k g]|] eqn:Hi; [|done].
  injection Hg as ->.
  destruct (emitted_key _ _ _ _ _ Hr Hi) as (v & Hv & Hk).
  exists v. split; [done|]. intros x Hx. apply identityKey_inj.
  destruct (groupFindings_map_grouped results) as [_ Hm].
  rewrite Hk. symmetry. apply (Hm k group x); [|done].
  by eapply list_elem_of_lookup_2.
Qed.

(** X7. No two findings of the result have the same file, first line and
    severity. *)
Theorem output_deduplicated (results : list ToolResult) (r : ConsensusResult)
    (i j : nat) (a b : Vulnerability) :
  combineResults results = Some r ->
  cr_vulnerabilities r !! i = Some a ->
  cr_vulnerabilities r !! j = Some b ->
  file (location a) = file (location b) ->
  lineStart (location a) = lineStart (location b) ->
  severity a = severity b ->
  i = j.
Proof.
  intros Hr Ha Hb Hf Hl Hs.
  assert (length (cr_vulnerabilities r) = length (groupFindings_map results))
    as Hlen.
  { pose proof Hr as Hr'. rewrite combineResults_unfold in Hr'.
    destruct (mapM processGroup (groupFindings results)) as [vs|] eqn:Hm;
      [|done].
    injection Hr' as <-. simpl. rewrite <- (length_mapM _ _ _ Hm).
    unfold groupFindings. by rewrite length_map. }
  destruct (lookup_lt_is_Some_2 (groupFindings_map results) i)
    as [[ki gi] Hi]; [rewrite <- Hlen; by eapply lookup_lt_Some|].
  destruct (lookup_lt_is_Some_2 (groupFindings_map results) j)
    as [[kj gj] Hj]; [rewrite <- Hlen; by eapply lookup_lt_Some|].
  destruct (emitted_key _ _ _ _ _ Hr Hi) as (a' & Ha' & Hka).
  destruct (emitted_key _ _ _ _ _ Hr Hj) as (b' & Hb' & Hkb).
  rewrite Ha in Ha'. injection Ha' as <-.
  rewrite Hb in Hb'. injection Hb' as <-.
  destruct (groupFindings_map_grouped results) as [Hnd _].
  eapply NoDup_lookup; [exact Hnd| |].
  - rewrite list_lookup_fmap, Hi. reflexivity.
  - rewrite list_lookup_fmap, Hj. simpl. f_equal.
    rewrite <- Hka, <- Hkb. unfold identityKey. by rewrite Hf, Hl, Hs.
Qed.

(** X8. A finding that is alone in its group is emitted in a form that
    [reduceFalsePositives] drops. *)
Theorem lone_finding_is_filtered (results : list ToolResult)
    (r : ConsensusResult) (i : nat) (finding : Vulnerability) :
  combineResults results = Some r ->
  groupFindings results !! i = Some [finding] ->
  exists v,
    cr_vulnerabilities r !! i = Some v
    /\ isLikelyFalsePositive v = true
    /\ reduceFalsePositives [v] = [].
Proof.
  intros Hr Hg. rewrite (combineResults_lookup _ _ _ _ Hr Hg).
  eexists. split; [reflexivity|].
  assert (exists t, tools finding = [(t, true)]) as [t Ht].
  { unfold groupFindings in Hg. rewrite list_lookup_fmap in Hg.
    destruct (groupFindings_map results !! i) as [[k g]|] eqn:Hi; [|done].
    injection Hg as ->.
    destruct (groupFindings_map_grouped results) as [_ Hm].
    apply (Hm k [finding] finding); [by eapply list_elem_of_lookup_2|left]. }
  assert (isLikelyFalsePositive
            (with_confidence (Some conf_low)
               (mul (weight_at (finding_tool finding)) (Num 50)) finding)
          = true) as Hfp.
  { unfold isLikelyFalsePositive. simpl. rewrite Ht. simpl.
    by rewrite !orb_true_r. }
  split; [exact Hfp|]. unfold reduceFalsePositives. by rewrite Hfp.
Qed.


(** ** The consensus path *)

Lemma assoc_absent {A : Type} (k : string) (m : list (string * A)) :
  k ∉ map fst m -> assoc k m = None.
Proof.
  induction m as [|[k0 a0] m IH]; simpl; [done|].
  intros H. destruct (String.eqb k k0) eqn:E.
  - apply String.eqb_eq in E as ->. exfalso. apply H. left.
  - apply IH. intros ?. apply H. by right.
Qed.



(** ** Weights *)



(** ** adjustConfidence *)

Lemma Qle_bool_false (x y : Q) : Qle_bool x y = false -> (y < x)%Q.
Proof.
  intros H. apply Qnot_le_lt. intros Hle. apply Qle_bool_iff in Hle.
  congruence.
Qed.

(** One boost: [Math.min(score + d, 100)]. *)
Lemma boost_bounds (q d : Q) :
  (0 <= d)%Q -> (q <= 100)%Q ->
  exists q', min (add (Num q) (Num d)) (Num 100) = Num q'
             /\ (q <= q')%Q /\ (q' <= 100)%Q.
Proof.
  intros Hd Hq. simpl. destruct (Qle_bool (q + d) 100) eqn:E.
  - apply Qle_bool_iff in E. eexists. split; [reflexivity|]. split; lra.
  - eexists. split; [reflexivity|]. split; lra.
Qed.

(** X10. [adjustConfidence] never lowers a tier, never lowers a score that
    is at most 100, and keeps such a score at most 100; NaN stays NaN. *)
Theorem adjustConfidence_raises (vuln : Vulnerability) :
  (confidence vuln = Some conf_high ->
   confidence (adjustConfidence vuln) = Some conf_high)
  /\ (confidence vuln = Some conf_medium ->
      confidence (adjustConfidence vuln) = Some conf_medium
      \/ confidence (adjustConfidence vuln) = Some conf_high)
  /\ (forall q : Q,
        confidenceScore vuln = Num q -> (q <= 100)%Q ->
        exists q',
          confidenceScore (adjustConfidence vuln) = Num q'
          /\ (q <= q')%Q /\ (q' <= 100)%Q)
  /\ (confidenceScore vuln = NaN ->
      confidenceScore (adjustConfidence vuln) = NaN).
Proof.
  unfold adjustConfidence.
  split; [|split; [|split]].
  - intros ->.
    destruct (Severity_eqb (severity vuln) critical && _);
      [|destruct (Severity_eqb (severity vuln) high && _)];
      by destruct (2 <=? length (tools vuln)).
  - intros ->.
    destruct (Severity_eqb (severity vuln) critical && _);
      [|destruct (Severity_eqb (severity vuln) high && _)];
      destruct (2 <=? length (tools vuln)); simpl; auto.
  - intros q -> Hq.
    destruct (boost_bounds q 20) as (q1 & E1 & ? & ?); [lra|done|].
    destruct (boost_bounds q 10) as (q2 & E2 & ? & ?); [lra|done|].
    destruct (boost_bounds q 15) as (q3 & E3 & ? & ?); [lra|done|].
    destruct (boost_bounds q1 15) as (q4 & E4 & ? & ?); [lra|done|].
    destruct (boost_bounds q2 15) as (q5 & E5 & ? & ?); [lra|done|].
    destruct (Severity_eqb (severity vuln) critical && _);
      [|destruct (Severity_eqb (severity vuln) high && _)];
      destruct (2 <=? length (tools vuln));
      cbn [with_confidence confidenceScore];
      rewrite ?E1, ?E2, ?E3, ?E4, ?E5; eexists; (split; [reflexivity|]);
      split; lra.
  - intros ->.
    destruct (Severity_eqb (severity vuln) critical && _);
      [|destruct (Severity_eqb (severity vuln) high && _)];
      by destruct (2 <=? length (tools vuln)).
Qed.

End GroupingKeys.

Section Merging.

Import Js Consensus.

(** ** mergeFindings *)

Lemma max_index_spec (l : list nat) :
  l <> [] ->
  max_index l ∈ l /\ forall y, y ∈ l -> y <= max_index l.
Proof.
  induction l as [|x l IH]; [done|]. intros _. unfold max_index in *.
  cbn [fold_right]. destruct l as [|z l].
  - simpl. rewrite Nat.max_0_r. split; [left|].
    intros y ->%list_elem_of_singleton. done.
  - destruct IH as [Hin Hle]; [done|].
    destruct (Nat.max_spec x (fold_right Nat.max 0 (z :: l)))
      as [[Hlt ->]|[Hge ->]].
    + split; [by right|]. intros y [->|Hy]%elem_of_cons; [lia|by apply Hle].
    + split; [left|]. intros y [->|Hy]%elem_of_cons; [lia|].
      specialize (Hle y Hy). lia.
Qed.

(** X5. The severity of a merged finding is the severity of one of the
    members and no member is more severe. *)
Theorem mergeFindings_most_severe (group : list Vulnerability)
    (ts : list string) (merged : Vulnerability) :
  mergeFindings group ts = Some merged ->
  (exists v, v ∈ group /\ severity merged = severity v)
  /\ forall v, v ∈ group ->
       severityMap (severity v) <= severityMap (severity merged).
Proof.
  destruct group as [|base rest]; [done|]. intros H.
  assert (severity merged
          = default (severity base)
              (List.find
                 (fun k => severityMap k
                           =? max_index (map severityMap
                                           (map severity (base :: rest))))
                 [critical; high; medium; low])) as ->.
  { unfold mergeFindings in H. by injection H as <-. }
  clear H.
  destruct (max_index_spec (map severityMap (map severity (base :: rest))))
    as [Hin Hle]; [done|].
  apply list_elem_of_fmap in Hin as (s & Hs & Hin).
  apply list_elem_of_fmap in Hin as (v & -> & Hv).
  rewrite Hs in *. rewrite find_severity. cbn [default from_option]. split.
  - by exists v.
  - intros x Hx. apply Hle. apply list_elem_of_fmap. eexists. split; [done|].
    apply list_elem_of_fmap. by exists x.
Qed.

End Merging.

(** * The life cycle of a workspace *)

Section WorkspaceLifeCycle.

Import Js Workspace.

Context {Vuln : Type}.
Variable clock : nat -> Date.

Implicit Types (st : State Vuln) (w : ChainWorkspace Vuln).

(** ** Missing workspaces *)

Lemma loadWorkspace_None (wid : string) st :
  workspaces st !! wid = None -> docs st !! wid = None ->
  loadWorkspace wid st = (None, st).
Proof. intros Hm Hd. unfold loadWorkspace. by rewrite Hm, Hd. Qed.

Lemma loadWorkspace_memory (wid : string) st w :
  workspaces st !! wid = Some w -> loadWorkspace wid st = (Some w, st).
Proof. intros Hm. unfold loadWorkspace. by rewrite Hm. Qed.

(** X11. On an id that is neither in memory nor on disk every mutating call
    throws "Workspace not found: id" and changes nothing; the statistics are
    [null] and [switchWorkspace] answers [false]. *)
Theorem missing_workspace (wid : string) st :
  workspaces st !! wid = None ->
  docs st !! wid = None ->
  (forall a c data,
     addContract clock wid a c data st
     = Thrown ("Workspace not found: " +:+ wid) st)
  /\ (forall a cs data,
        addContractMultiChain clock wid a cs data st
        = Thrown ("Workspace not found: " +:+ wid) st)
  /\ (forall a c (vulns : list Vuln),
        addVulnerabilities clock wid a c vulns st
        = Thrown ("Workspace not found: " +:+ wid) st)
  /\ (forall a c report,
        addReport clock wid a c report st
        = Thrown ("Workspace not found: " +:+ wid) st)
  /\ getWorkspaceStats wid st = None
  /\ switchWorkspace wid st = (false, st).
Proof.
  intros Hm Hd. pose proof (loadWorkspace_None wid st Hm Hd) as Hl.
  unfold addContract, addContractMultiChain, addVulnerabilities, addReport,
    getWorkspaceStats, switchWorkspace.
  rewrite Hl, Hm. repeat split.
Qed.

(** ** A new workspace *)




(** ** What a call leaves alone *)

Lemma mkdir_fold (wid : string) (l : list string) st :
  let st' := fold_left (fun s chain => mkdir [wid; chain] s) l st in
  workspaces st' = workspaces st /\ docs st' = docs st
  /\ files st' = files st /\ ticks st' = ticks st
  /\ config st' = config st /\ currentWorkspace st' = currentWorkspace st
  /\ dirs st ⊆ dirs st'.
Proof.
  revert st. induction l as [|c l IH]; intros st; cbn [fold_left].
  - by repeat (split; [done|]).
  - destruct (IH (mkdir [wid; c] st)) as (? & ? & ? & ? & ? & ? & Hd).
    repeat (split; [done|]). etrans; [|exact Hd]. simpl.
    apply union_subseteq_r.
Qed.


Lemma loadWorkspace_rest (wid : string) st o st1 :
  loadWorkspace wid st = (o, st1) ->
  docs st1 = docs st /\ files st1 = files st /\ dirs st1 = dirs st
  /\ ticks st1 = ticks st /\ config st1 = config st
  /\ forall wid', wid' <> wid ->
       workspaces st1 !! wid' = workspaces st !! wid'.
Proof.
  unfold loadWorkspace.
  destruct (workspaces st !! wid) as [w0|] eqn:Hm.
  - intros [= <- <-]. repeat split.
  - destruct (docs st !! wid) as [w0|] eqn:Hd.
    + intros [= <- <-]. simpl. repeat split.
      intros wid' Hne. by rewrite lookup_insert_ne.
    + intros [= <- <-]. repeat split.
Qed.

(** The loop of [addContractMultiChain] reads the clock and rewrites the
    workspace object only. *)
Lemma addContractMultiChain_fold_state (a : string) (data : gmap string value)
    (chs : list string) w st w' st' :
  fold_left (addContractMultiChain_step clock a data) chs (w, st) = (w', st') ->
  workspaces st' = workspaces st /\ docs st' = docs st
  /\ files st' = files st /\ dirs st' = dirs st
  /\ currentWorkspace st' = currentWorkspace st
  /\ ticks st' = length chs + ticks st.
Proof.
  revert w st. induction chs as [|c chs IH]; intros w st; cbn [fold_left].
  - intros [= <- <-]. by repeat (split; [done|]).
  - unfold addContractMultiChain_step at 2, new_Date. cbv beta iota zeta.
    intros H. apply IH in H as (H1 & H2 & H3 & H4 & H5 & H6).
    rewrite H1, H2, H3, H4, H5, H6. simpl. repeat (split; [done|]). lia.
Qed.

(** X13. A call for one workspace leaves every other workspace as it was,
    in memory and on disk, when the two ids are plain names, so that they
    name two directories. *)
Theorem other_workspaces_untouched (wid wid' : string) st :
  plain wid = true ->
  plain wid' = true ->
  wid' <> wid ->
  let untouched (st' : State Vuln) :=
    workspaces st' !! wid' = workspaces st !! wid'
    /\ docs st' !! wid' = docs st !! wid' in
  (forall chs, untouched (after (createWorkspace clock wid chs st)))
  /\ (forall a c data, untouched (after (addContract clock wid a c data st)))
  /\ (forall a cs data,
        untouched (after (addContractMultiChain clock wid a cs data st)))
  /\ (forall a c vulns,
        untouched (after (addVulnerabilities clock wid a c vulns st)))
  /\ (forall a c report,
        untouched (after (addReport clock wid a c report st))).
Proof.
  intros _ _ Hne untouched. subst untouched. cbv beta.
  split; [|split; [|split; [|split]]].
  - intros chs. unfold createWorkspace.
    destruct (mkdir_fold wid
                (if 0 <? length chs then chs else supportedChains (config st))
                (mkdir [wid] st)) as (Hw & Hd & _).
    set (st2 := fold_left _ _ _) in *.
    simpl. destruct (decide ([wid] ∈ dirs st2)); simpl;
      rewrite !lookup_insert_ne by done; by rewrite Hw, Hd.
  - intros a c data. unfold addContract.
    destruct (loadWorkspace wid st) as [[w|] st1] eqn:Hl;
      destruct (loadWorkspace_rest _ _ _ _ Hl) as (Hd & _ & _ & _ & _ & Hw).
    + unfold new_Date. cbv beta iota zeta.
      match goal with
      | |- context [saveWorkspace clock wid ?x ?s] =>
          destruct (saveWorkspace_spec clock wid x s) as (st' & Hs & Hd' & Hw' & _)
      end.
      rewrite Hs. simpl. rewrite Hd', Hw', !lookup_insert_ne by done.
      simpl. by rewrite Hd, Hw.
    + simpl. by rewrite Hd, Hw.
  - intros a cs data. unfold addContractMultiChain.
    destruct (loadWorkspace wid st) as [[w|] st1] eqn:Hl;
      destruct (loadWorkspace_rest _ _ _ _ Hl) as (Hd & _ & _ & _ & _ & Hw).
    + destruct (fold_left _ cs (w, st1)) as [w2 st2] eqn:Hf.
      destruct (addContractMultiChain_fold_state _ _ _ _ _ _ _ Hf)
        as (Hw2 & Hd2 & _).
      destruct (saveWorkspace_spec clock wid w2 st2) as (st' & Hs & Hd' & Hw' & _).
      rewrite Hs. simpl. rewrite Hd', Hw', !lookup_insert_ne by done.
      by rewrite Hw2, Hd2, Hd, Hw.
    + simpl. by rewrite Hd, Hw.
  - intros a c vulns. unfold addVulnerabilities.
    destruct (loadWorkspace wid st) as [[w|] st1] eqn:Hl;
      destruct (loadWorkspace_rest _ _ _ _ Hl) as (Hd & _ & _ & _ & _ & Hw).
    + match goal with
      | |- context [saveWorkspace clock wid ?x ?s] =>
          destruct (saveWorkspace_spec clock wid x s) as (st' & Hs & Hd' & Hw' & _)
      end.
      rewrite Hs. simpl. rewrite Hd', Hw', !lookup_insert_ne by done.
      by rewrite Hd, Hw.
    + simpl. by rewrite Hd, Hw.
  - intros a c report. unfold addReport.
    destruct (loadWorkspace wid st) as [[w|] st1] eqn:Hl;
      destruct (loadWorkspace_rest _ _ _ _ Hl) as (Hd & _ & _ & _ & _ & Hw).
    + match goal with
      | |- context [saveWorkspace clock wid ?x ?s] =>
          destruct (saveWorkspace_spec clock wid x s) as (st' & Hs & Hd' & Hw' & _)
      end.
      rewrite Hs. simpl. rewrite Hd', Hw', !lookup_insert_ne by done.
      by rewrite Hd, Hw.
    + simpl. by rewrite Hd, Hw.
Qed.


(** ** Reports *)



(** ** Adding a contract twice *)

(** X16. For an address that is not the name of a member of
    [Object.prototype] and a chain, with an entry, other than
    ["__proto__"], a second [addContract] for the same contract and chain
    replaces the metadata of the first, and the list of the chain holds the
    address twice more. *)
Theorem addContract_twice (wid a chain : string)
    (data1 data2 : gmap string value) st w st1 (cs : ChainState Vuln) :
  loadWorkspace wid st = (Some w, st1) ->
  chains w !! chain = Some cs ->
  inherited a = false ->
  chain <> "__proto__" ->
  exists st' st'' w'' cs'' stamp,
    addContract clock wid a chain data1 st = Returned tt st'
    /\ addContract clock wid a chain data2 st' = Returned tt st''
    /\ getWorkspaceInfo wid st'' = Some w''
    /\ contracts w''
       = <[a := <[chain := data2
                           ∪ <["address" := VStr a]>
                               (<["chain" := VStr chain]>
                                  (<["addedAt" := VDate stamp]> ∅))]>
                  (default ∅ (contracts w !! a))]> (contracts w)
    /\ chains w'' !! chain = Some cs''
    /\ cs_contracts cs'' = cs_contracts cs ++ [a; a].
Proof.
  intros Hl Hc _ _.
  destruct (addContract_spec clock wid a chain data1 st w st1 Hl)
    as (st' & Hr1 & _ & Hw1).
  pose proof (loadWorkspace_memory _ _ _ Hw1) as Hl2.
  destruct (addContract_spec clock wid a chain data2 st' _ st' Hl2)
    as (st'' & Hr2 & _ & Hw2).
  eexists st', st'', _, _, _. split; [exact Hr1|]. split; [exact Hr2|].
  split; [exact Hw2|]. simpl.
  rewrite !(proj1 (on_chain_frame _ _ _)). simpl.
  rewrite lookup_insert_eq. simpl. rewrite !insert_insert_eq.
  split; [reflexivity|].
  erewrite on_chain_chains; [split; [reflexivity|]|].
  2:{ simpl. erewrite on_chain_chains; [reflexivity|]. exact Hc. }
  simpl. by rewrite <- app_assoc.
Qed.

(** ** Deleting and switching *)

(** X18. For a plain id: deleting a workspace whose directory exists
    removes it from memory and from disk with every file below it, resets
    the current workspace and leaves the other workspaces of a plain id;
    afterwards the id is not found. When the directory does not exist
    nothing changes. *)
Theorem deleteWorkspace_removes (wid : string) st :
  plain wid = true ->
  ([wid] ∈ dirs st ->
   exists st',
     deleteWorkspace wid st = (true, st')
     /\ loadWorkspace wid st' = (None, st')
     /\ getWorkspaceStats wid st' = None
     /\ getCurrentWorkspace st' = None
     /\ (forall p, head p = Some wid -> files st' !! p = None /\ p ∉ dirs st')
     /\ (forall wid', plain wid' = true -> wid' <> wid ->
           workspaces st' !! wid' = workspaces st !! wid'
           /\ docs st' !! wid' = docs st !! wid'))
  /\ ([wid] ∉ dirs st -> deleteWorkspace wid st = (false, st)).
Proof.
  intros _. unfold deleteWorkspace. split; intros Hd.
  - rewrite decide_True by done. eexists. split; [reflexivity|].
    unfold loadWorkspace, getWorkspaceStats, getCurrentWorkspace. simpl.
    rewrite !lookup_delete_eq. repeat split.
    + apply map_lookup_filter_None. right. intros x _ Hx. by apply Hx.
    + intros [Hx _]%elem_of_filter. by apply Hx.
    + by rewrite lookup_delete_ne.
    + by rewrite lookup_delete_ne.
  - by rewrite decide_False.
Qed.

(** A workspace that was just created can be deleted. *)
Lemma createWorkspace_dir (wid : string) (chs : list string) st :
  [wid] ∈ dirs (after (createWorkspace clock wid chs st)).
Proof.
  unfold createWorkspace.
  destruct (mkdir_fold wid
              (if 0 <? length chs then chs else supportedChains (config st))
              (mkdir [wid] st)) as (_ & _ & _ & _ & _ & _ & Hd).
  set (st2 := fold_left _ _ _) in *.
  assert ([wid] ∈ dirs st2) as Hin.
  { apply Hd. simpl. apply elem_of_union_l. by apply elem_of_singleton. }
  simpl. rewrite decide_True by done. simpl. done.
Qed.

(** X19. [switchWorkspace] answers [true] and makes the workspace current
    exactly when the workspace can be loaded; otherwise it answers [false]
    and the current workspace stays. *)
Theorem switchWorkspace_current (wid : string) st :
  (is_Some (workspaces st !! wid) \/ is_Some (docs st !! wid) ->
   exists st' w,
     switchWorkspace wid st = (true, st')
     /\ getCurrentWorkspace st' = Some wid
     /\ getWorkspaceInfo wid st' = Some w)
  /\ (workspaces st !! wid = None -> docs st !! wid = None ->
      switchWorkspace wid st = (false, st)).
Proof.
  unfold switchWorkspace, loadWorkspace, getCurrentWorkspace, getWorkspaceInfo.
  split.
  - intros H. destruct (workspaces st !! wid) as [w|] eqn:Hm.
    + eexists _, w. split; [reflexivity|]. split; [reflexivity|]. exact Hm.
    + destruct H as [[? ?]|[w Hd]]; [done|]. rewrite Hd.
      eexists _, w. split; [reflexivity|]. split; [reflexivity|].
      simpl. by rewrite lookup_insert_eq.
  - intros -> ->. done.
Qed.

End WorkspaceLifeCycle.

(** * Keys, report files and several chains *)

Section WorkspaceKeys.

Import Js Workspace.
Import Stdlib.Strings.Ascii.

Context {Vuln : Type}.
Variable clock : nat -> Date.

Implicit Types (st : State Vuln) (w : ChainWorkspace Vuln).

(** ** Keys and file names *)

(** [s.includes(c)] for a one-character string. *)
Lemma includes_char (c : ascii) (s : string) :
  includes (String c "") s = false <-> c ∉ String.list_ascii_of_string s.
Proof.
  induction s as [|x s IH]; simpl.
  - split; [intros _; apply not_elem_of_nil|intros _; reflexivity].
  - destruct (ascii_dec c x) as [->|Hne]; simpl.
    + replace (String.prefix "" s) with true by (by destruct s).
      split; [intros ?; discriminate|]. intros H. exfalso. apply H. left.
    + rewrite IH. split.
      * intros H [?|?]%elem_of_cons; done.
      * intros H ?. apply H. by right.
Qed.

(** X20. Two contracts with colon-free addresses have the same key only if
    they are the same contract on the same chain; with a colon in the
    address, different pairs can share a key. *)
Theorem contractKey_inj :
  (forall a1 c1 a2 c2 : string,
     includes ":" a1 = false -> includes ":" a2 = false ->
     contractKey a1 c1 = contractKey a2 c2 -> a1 = a2 /\ c1 = c2)
  /\ (forall a b c : string,
        contractKey (a +:+ ":" +:+ b) c = contractKey a (b +:+ ":" +:+ c)).
Proof.
  split.
  - intros a1 c1 a2 c2 H1%includes_char H2%includes_char H.
    unfold contractKey in H. apply (f_equal String.list_ascii_of_string) in H.
    rewrite !chars_app in H. simpl in H.
    apply split_at_first in H as [Ha Hc]; [|done..].
    split; by apply chars_inj.
  - intros a b c. unfold contractKey. apply chars_inj.
    rewrite !chars_app. simpl. by rewrite <- !app_assoc.
Qed.








(** ** Adding a contract on several chains *)

Lemma per_chain_lookup (a c c0 : string) (record : gmap string value)
    (m : gmap string (gmap string (gmap string value))) :
  (<[a := <[c0 := record]> (default ∅ (m !! a))]> m !! a ≫= fun per => per !! c)
  = if decide (c = c0) then Some record else m !! a ≫= fun per => per !! c.
Proof.
  rewrite lookup_insert_eq. simpl. destruct (decide (c = c0)) as [->|Hne].
  - by rewrite lookup_insert_eq.
  - rewrite lookup_insert_ne by done. by destruct (m !! a).
Qed.

Lemma on_chain_contracts_list (a c c0 : string) w :
  cs_contracts <$> chains (on_chain c0 (push_contract a) w) !! c
  = (fun l => l ++ if decide (c = c0) then [a] else [])
      <$> (cs_contracts <$> chains w !! c).
Proof.
  unfold on_chain. destruct (chains w !! c0) as [cs|] eqn:E.
  - simpl. destruct (decide (c = c0)) as [->|Hne].
    + by rewrite lookup_insert_eq, E.
    + rewrite lookup_insert_ne by done.
      destruct (chains w !! c); simpl; [|done]. by rewrite app_nil_r.
  - destruct (decide (c = c0)) as [->|Hne].
    + by rewrite E.
    + destruct (chains w !! c); simpl; [|done]. by rewrite app_nil_r.
Qed.

Lemma addContractMultiChain_fold_workspace (a : string)
    (data : gmap string value) (chs : list string) w st w' st' :
  fold_left (addContractMultiChain_step clock a data) chs (w, st) = (w', st') ->
  vulnerabilities w' = vulnerabilities w /\ reports w' = reports w
  /\ (forall a', a' <> a -> contracts w' !! a' = contracts w !! a')
  /\ (forall c, c ∉ chs ->
        (contracts w' !! a ≫= fun per => per !! c)
        = (contracts w !! a ≫= fun per => per !! c))
  /\ (forall c, c ∈ chs ->
        exists stamp,
          (contracts w' !! a ≫= fun per => per !! c)
          = Some (data ∪ <["address" := VStr a]>
                           (<["chain" := VStr c]>
                              (<["addedAt" := VDate stamp]> ∅))))
  /\ (forall c,
        cs_contracts <$> chains w' !! c
        = (fun l => l ++ replicate (length (List.filter (String.eqb c) chs)) a)
            <$> (cs_contracts <$> chains w !! c)).
Proof.
  revert w st. induction chs as [|c0 chs IH]; intros w st; cbn [fold_left].
  - intros [= <- <-]. repeat (split; [done|]). split.
    + intros c H. by apply elem_of_nil in H.
    + intros c. simpl. destruct (chains w !! c); simpl; [|done].
      by rewrite app_nil_r.
  - unfold addContractMultiChain_step at 2, new_Date. cbv beta iota zeta.
    set (w1 := on_chain c0 _ _). intros H.
    assert (vulnerabilities w1 = vulnerabilities w) as Ev
      by (subst w1; by rewrite (proj1 (proj2 (on_chain_frame _ _ _)))).
    assert (reports w1 = reports w) as Er
      by (subst w1; by rewrite (proj1 (proj2 (proj2 (on_chain_frame _ _ _))))).
    assert (contracts w1
            = <[a := <[c0 := data
                               ∪ <["address" := VStr a]>
                                   (<["chain" := VStr c0]>
                                      (<["addedAt" := VDate (clock (ticks st))]> ∅))]>
                       (default ∅ (contracts w !! a))]> (contracts w)) as Ec
      by (subst w1; by rewrite (proj1 (on_chain_frame _ _ _))).
    apply IH in H as (Hv & Hr & Ho & Hn & Hi & Hc). clear IH.
    rewrite Ev in Hv. rewrite Er in Hr.
    setoid_rewrite Ec in Ho. setoid_rewrite Ec in Hn.
    split; [done|]. split; [done|]. split; [|split; [|split]].
    + intros a' Hne. rewrite Ho by done. by rewrite lookup_insert_ne.
    + intros c Hc0. rewrite Hn by (intros ?; apply Hc0; by right).
      rewrite per_chain_lookup. rewrite decide_False; [done|].
      intros ->. apply Hc0. left.
    + intros c Hin. destruct (decide (c ∈ chs)) as [Hc1|Hc1].
      * by apply Hi.
      * apply elem_of_cons in Hin as [->|?]; [|done].
        rewrite Hn by done. rewrite per_chain_lookup, decide_True by done.
        by eexists.
    + intros c. rewrite Hc. subst w1. rewrite on_chain_contracts_list. simpl.
      destruct (chains w !! c) as [cs|]; simpl; [|done]. f_equal.
      rewrite <- app_assoc. f_equal.
      destruct (decide (c = c0)) as [->|Hne].
      * by rewrite String.eqb_refl.
      * apply String.eqb_neq in Hne. by rewrite Hne.
Qed.

(** X17. When neither the address nor a listed chain is the name of a
    member of [Object.prototype], [addContractMultiChain] records the
    metadata for every chain of the list, appends the address to the list
    of a chain once for each time the chain is listed, touches no other
    contract or chain, and saves once. *)
Theorem addContractMultiChain_effect (wid a : string) (chs : list string)
    (data : gmap string value) st w st1 :
  loadWorkspace wid st = (Some w, st1) ->
  inherited a = false ->
  Forall (fun c => inherited c = false) chs ->
  exists st' w',
    addContractMultiChain clock wid a chs data st = Returned tt st'
    /\ getWorkspaceInfo wid st' = Some w'
    /\ (forall c, c ∈ chs ->
          exists stamp,
            (contracts w' !! a ≫= fun per => per !! c)
            = Some (data ∪ <["address" := VStr a]>
                             (<["chain" := VStr c]>
                                (<["addedAt" := VDate stamp]> ∅))))
    /\ (forall c, c ∉ chs ->
          (contracts w' !! a ≫= fun per => per !! c)
          = (contracts w !! a ≫= fun per => per !! c))
    /\ (forall a', a' <> a -> contracts w' !! a' = contracts w !! a')
    /\ (forall c,
          cs_contracts <$> chains w' !! c
          = (fun l => l ++ replicate (length (List.filter (String.eqb c) chs)) a)
              <$> (cs_contracts <$> chains w !! c))
    /\ vulnerabilities w' = vulnerabilities w
    /\ reports w' = reports w
    /\ ticks st' = S (length chs + ticks st).
Proof.
  intros Hl _ _. unfold addContractMultiChain. rewrite Hl.
  destruct (loadWorkspace_rest _ _ _ _ Hl) as (_ & _ & _ & Ht & _).
  destruct (fold_left _ chs (w, st1)) as [w2 st2] eqn:Hf.
  destruct (addContractMultiChain_fold_workspace _ _ _ _ _ _ _ Hf)
    as (Hv & Hr & Ho & Hn & Hi & Hc).
  destruct (addContractMultiChain_fold_state _ _ _ _ _ _ _ _ Hf)
    as (_ & _ & _ & _ & _ & Ht2).
  destruct (saveWorkspace_spec clock wid w2 st2) as (st' & Hs & _ & Hw & Ht' & _).
  rewrite Hs. eexists st', _. split; [reflexivity|].
  unfold getWorkspaceInfo. rewrite Hw, lookup_insert_eq.
  split; [reflexivity|]. simpl.
  repeat (split; [done|]). rewrite Ht', Ht2, Ht. done.
Qed.

End WorkspaceKeys.

(** * The further properties on sample inputs *)

Section EngineExamples.

Import Js Consensus.

(** [groups_by_location_and_severity] on the two findings of
    [Samples.twoTools]. *)
Lemma groups_by_location_and_severity_witness :
  0 = 0
  <-> (file (location (Samples.bankFinding "S-1" "Reentrancy"))
       = file (location (Samples.bankFinding "M-1" "Integer overflow"))
       /\ lineStart (location (Samples.bankFinding "S-1" "Reentrancy"))
          = lineStart (location (Samples.bankFinding "M-1" "Integer overflow"))
       /\ severity (Samples.bankFinding "S-1" "Reentrancy")
          = severity (Samples.bankFinding "M-1" "Integer overflow")).
Proof.
  apply (groups_by_location_and_severity Samples.twoTools 0 0
           [vulnWithTool "slither" (Samples.bankFinding "S-1" "Reentrancy");
            vulnWithTool "mythril" (Samples.bankFinding "M-1" "Integer overflow")]
           [vulnWithTool "slither" (Samples.bankFinding "S-1" "Reentrancy");
            vulnWithTool "mythril" (Samples.bankFinding "M-1" "Integer overflow")]
           (vulnWithTool "slither" (Samples.bankFinding "S-1" "Reentrancy"))
           (vulnWithTool "mythril" (Samples.bankFinding "M-1" "Integer overflow"))
           eq_refl eq_refl).
  - left.
  - right. left.
Defined.



(** [mergeFindings_most_severe] on a group of two findings. *)
Lemma mergeFindings_most_severe_witness :
  exists m,
    mergeFindings
      [Samples.agreedFinding; Samples.bankFinding "S-1" "Reentrancy"]
      ["slither"] = Some m
    /\ severityMap (severity Samples.agreedFinding) <= severityMap (severity m).
Proof.
  eexists. split; [reflexivity|].
  eapply (mergeFindings_most_severe
            [Samples.agreedFinding; Samples.bankFinding "S-1" "Reentrancy"]
            ["slither"]); [reflexivity|left].
Defined.

(** [emitted_at_the_place_of_its_group] on [Samples.withAi]. *)
Lemma emitted_at_the_place_of_its_group_witness :
  exists v,
    (cr_vulnerabilities <$> combineResults Samples.withAi) = Some [v]
    /\ file (location v) = "Bank.sol"
    /\ lineStart (location v) = 10%Z
    /\ severity v = critical.
Proof.
  destruct (combineResults Samples.withAi) as [r|] eqn:Hr; [|discriminate Hr].
  destruct (emitted_at_the_place_of_its_group Samples.withAi r 0
              [vulnWithTool "mythril" (Samples.bankFinding "M-1" "Integer overflow");
               vulnWithTool "ai" (Samples.bankFinding "A-1" "Reentrancy")]
              Hr eq_refl) as (v & Hv & Hx).
  exists v.
  destruct (Hx (vulnWithTool "ai" (Samples.bankFinding "A-1" "Reentrancy")))
    as (Hf & Hl & Hs); [right; left|].
  split; [|by rewrite Hf, Hl, Hs].
  injection Hr as <-. simpl in Hv. injection Hv as <-. reflexivity.
Defined.

(** [output_deduplicated] on [Samples.twoTools]: one finding comes out. *)
Lemma output_deduplicated_witness : 0 = 0.
Proof.
  exact (output_deduplicated Samples.twoTools
           {| cr_vulnerabilities :=
                [vulnWithTool "slither" (Samples.bankFinding "S-1" "Reentrancy")];
              consensus := {| total := 1; agreed := 0; conflicts := 0;
                              overrides := 0 |};
              cr_toolWeights := toolWeights |}
           0 0
           (vulnWithTool "slither" (Samples.bankFinding "S-1" "Reentrancy"))
           (vulnWithTool "slither" (Samples.bankFinding "S-1" "Reentrancy"))
           eq_refl eq_refl eq_refl eq_refl eq_refl eq_refl).
Defined.

(** [lone_finding_is_filtered] for a finding that slither alone reports. *)
Lemma lone_finding_is_filtered_witness :
  exists r,
    combineResults
      [mkToolResult "slither" [Samples.bankFinding "S-1" "Reentrancy"] (Num 1)]
    = Some r
    /\ reduceFalsePositives (cr_vulnerabilities r) = [].
Proof.
  eexists. split; [reflexivity|].
  destruct (lone_finding_is_filtered
              [mkToolResult "slither" [Samples.bankFinding "S-1" "Reentrancy"]
                 (Num 1)]
              _ 0 (vulnWithTool "slither" (Samples.bankFinding "S-1" "Reentrancy"))
              eq_refl eq_refl) as (v & Hv & _ & Hd).
  simpl in Hv. injection Hv as <-. exact Hd.
Defined.


(** [adjustConfidence_raises] on [Samples.agreedFinding], tier medium and
    score 0.7. *)
Lemma adjustConfidence_raises_witness :
  (confidence (adjustConfidence Samples.agreedFinding) = Some conf_medium
   \/ confidence (adjustConfidence Samples.agreedFinding) = Some conf_high)
  /\ exists q',
       confidenceScore (adjustConfidence Samples.agreedFinding) = Num q'
       /\ (0.7 <= q')%Q /\ (q' <= 100)%Q.
Proof.
  destruct (adjustConfidence_raises Samples.agreedFinding)
    as (_ & Hm & Hs & _).
  split; [exact (Hm eq_refl)|].
  apply (Hs 0.7%Q eq_refl). unfold Qle. simpl. lia.
Defined.

End EngineExamples.

Section StoreExamples.

Import Js Workspace.

(** [missing_workspace] for an id that the resumed session does not have. *)
Lemma missing_workspace_witness :
  addVulnerabilities Samples.ticking "w9" "0xAA" "ethereum" ["overflow"]
    Samples.resumed
  = Thrown "Workspace not found: w9" Samples.resumed
  /\ getWorkspaceStats "w9" Samples.resumed = None.
Proof.
  destruct (missing_workspace Samples.ticking "w9" Samples.resumed
              eq_refl eq_refl) as (_ & _ & Hv & _ & Hs & _).
  split; [apply Hv|exact Hs].
Defined.

(** [other_workspaces_untouched]: creating "w2" leaves "w1". *)
Lemma other_workspaces_untouched_witness :
  docs (after (createWorkspace Samples.ticking "w2" [] Samples.resumed)) !! "w1"
  = Some Samples.audited.
Proof.
  assert ("w1" <> "w2") as Hne by discriminate.
  destruct (other_workspaces_untouched Samples.ticking "w2" "w1"
              Samples.resumed eq_refl eq_refl Hne) as (Hc & _).
  destruct (Hc []) as [_ Hd]. rewrite Hd. reflexivity.
Defined.



(** [addContract_twice] on the resumed workspace, whose ethereum list holds
    "0xAA" once. *)
Lemma addContract_twice_witness :
  exists st' st'' w'' cs'',
    addContract Samples.ticking "w1" "0xAA" "ethereum" {[ "name" := VStr "Bank" ]}
      Samples.resumed = Returned tt st'
    /\ addContract Samples.ticking "w1" "0xAA" "ethereum"
         {[ "name" := VStr "Vault" ]} st' = Returned tt st''
    /\ getWorkspaceInfo "w1" st'' = Some w''
    /\ (contracts w'' !! "0xAA" ≫= fun per => per !! "ethereum"
                      ≫= fun record => record !! "name")
       = Some (VStr "Vault")
    /\ size (contracts w'') = 1
    /\ chains w'' !! "ethereum" = Some cs''
    /\ cs_contracts cs'' = ["0xAA"; "0xAA"; "0xAA"].
Proof.
  destruct (addContract_twice Samples.ticking "w1" "0xAA" "ethereum"
              {[ "name" := VStr "Bank" ]} {[ "name" := VStr "Vault" ]}
              Samples.resumed Samples.audited Samples.resumed
              {| cs_contracts := ["0xAA"]; cs_vulnerabilities := ["reentrancy"];
                 cs_reports := []; cs_config := ∅ |}
              eq_refl eq_refl eq_refl ltac:(discriminate))
    as (st' & st'' & w'' & cs'' & stamp & H1 & H2 & Hw & Hc & Hch & Hl).
  exists st', st'', w'', cs''. split; [exact H1|]. split; [exact H2|].
  split; [exact Hw|]. rewrite Hc. split; [reflexivity|].
  split; [reflexivity|]. split; [exact Hch|exact Hl].
Defined.

(** [addContractMultiChain_effect] with ethereum listed twice and a chain
    that has no entry. *)
Lemma addContractMultiChain_effect_witness :
  exists st' w',
    addContractMultiChain Samples.ticking "w1" "0xBB"
      ["ethereum"; "solana"; "ethereum"] {[ "name" := VStr "Swap" ]}
      Samples.resumed = Returned tt st'
    /\ getWorkspaceInfo "w1" st' = Some w'
    /\ (cs_contracts <$> chains w' !! "ethereum") = Some ["0xAA"; "0xBB"; "0xBB"]
    /\ chains w' !! "solana" = None
    /\ contracts w' !! "0xAA" = contracts Samples.audited !! "0xAA".
Proof.
  destruct (addContractMultiChain_effect Samples.ticking "w1" "0xBB"
              ["ethereum"; "solana"; "ethereum"] {[ "name" := VStr "Swap" ]}
              Samples.resumed Samples.audited Samples.resumed eq_refl eq_refl
              ltac:(repeat constructor))
    as (st' & w' & Hr & Hw & _ & _ & Ho & Hc & _).
  exists st', w'. split; [exact Hr|]. split; [exact Hw|].
  split; [rewrite Hc; reflexivity|]. split.
  - pose proof (Hc "solana") as H. simpl in H.
    destruct (chains w' !! "solana"); [discriminate H|reflexivity].
  - apply Ho. discriminate.
Defined.

(** [deleteWorkspace_removes] on the resumed session. *)
Lemma deleteWorkspace_removes_witness :
  exists st',
    deleteWorkspace "w1" Samples.resumed = (true, st')
    /\ loadWorkspace "w1" st' = (None, st')
    /\ addVulnerabilities Samples.ticking "w1" "0xAA" "ethereum" ["overflow"] st'
       = Thrown "Workspace not found: w1" st'.
Proof.
  assert (["w1"] ∈ dirs Samples.resumed) as Hd.
  { apply elem_of_singleton. reflexivity. }
  destruct (proj1 (deleteWorkspace_removes "w1" Samples.resumed eq_refl) Hd)
    as (st' & Hr & Hl & _).
  exists st'. split; [exact Hr|]. split; [exact Hl|].
  unfold addVulnerabilities. rewrite Hl. reflexivity.
Defined.

(** [switchWorkspace_current] on the resumed session. *)
Lemma switchWorkspace_current_witness :
  exists st',
    switchWorkspace "w1" Samples.resumed = (true, st')
    /\ getCurrentWorkspace st' = Some "w1".
Proof.
  destruct (proj1 (switchWorkspace_current "w1" Samples.resumed))
    as (st' & w & Hs & Hc & _).
  - left. eexists. reflexivity.
  - exists st'. split; [exact Hs|exact Hc].
Defined.

(** [contractKey_inj] for two hexadecimal addresses. *)
Lemma contractKey_inj_witness :
  "0xAA" = "0xAA" /\ "ethereum" = "ethereum".
Proof.
  exact (proj1 contractKey_inj "0xAA" "ethereum" "0xAA" "ethereum"
           eq_refl eq_refl eq_refl).
Defined.

End StoreExamples.
